(** * Weather push client: the normalizer, the pipeline and the scheduler

    A shallow embedding of [src/index.js]:
    - [mapToPrimitives], the normalizer of the fetched weather document;
    - [pushObservation], the fetch / normalize / upsert pipeline;
    - [startPusher] and the [/start], [/stop] handlers, the scheduler.

    The first part models the fragment of JavaScript the program runs on:
    values as [JSON.parse] builds them, the coercions [Boolean], [Number] and
    [String], property reads, and [Date].  Numbers are IEEE 754 binary64
    values ([spec_float] of the standard library). *)

Set Warnings "-register-all".
From Stdlib Require Import ZArith List String Ascii Bool Lia.
From Stdlib Require Import Floats.SpecFloat DecimalString.
Import ListNotations.

Local Open Scope list_scope.
Local Open Scope string_scope.
Local Open Scope Z_scope.

(** ** Completions: a computation returns a value or throws *)

Inductive exn : Type :=
| TypeError
| RangeError
| SyntaxError
| Error (message : string)
| HostFailure (reason : string).

Inductive completion (A : Type) : Type :=
| Return (a : A)
| Throw (e : exn).

Arguments Return {A} a.
Arguments Throw {A} e.

Definition bind {A B : Type} (c : completion A) (k : A -> completion B)
  : completion B :=
  match c with
  | Return a => k a
  | Throw e => Throw e
  end.

Notation "x <- c ;; k" := (bind c (fun x => k))
  (at level 61, c at next level, right associativity).

(** ** Numbers *)

Definition number : Type := spec_float.

Definition prec : Z := 53.
Definition emax : Z := 1024.

Definition NaN : number := S754_nan.
Definition pos_zero : number := S754_zero false.

(** The binary64 value nearest to [n / d] (ties to even), for positive
    integers [n] and [d], with sign [neg]. *)
Definition round_ratio (neg : bool) (n d : Z) : number :=
  match n with
  | Z0 => S754_zero neg
  | _ =>
    let '(q, e, l) := SFdiv_core_binary prec emax n 0 d 0 in
    binary_round_aux prec emax neg q e l
  end.

(** The Number value of the decimal [m * 10^e10]. *)
Definition round_decimal (neg : bool) (m e10 : Z) : number :=
  if 0 <=? e10 then round_ratio neg (m * 10 ^ e10) 1
  else round_ratio neg m (10 ^ (- e10)).

Definition of_Z (z : Z) : number :=
  round_decimal (z <? 0) (Z.abs z) 0.

Definition number_eqb (x y : number) : bool :=
  match x, y with
  | S754_zero a, S754_zero b => Bool.eqb a b
  | S754_infinity a, S754_infinity b => Bool.eqb a b
  | S754_nan, S754_nan => true
  | S754_finite a m e, S754_finite b m' e' =>
    Bool.eqb a b && Pos.eqb m m' && Z.eqb e e'
  | _, _ => false
  end.

(** ** Strings as lists of code units *)

Fixpoint chars (s : string) : list ascii :=
  match s with
  | EmptyString => []
  | String c s' => c :: chars s'
  end.

Fixpoint unchars (l : list ascii) : string :=
  match l with
  | [] => EmptyString
  | c :: l' => String c (unchars l')
  end.

Definition code (c : ascii) : Z := Z.of_nat (nat_of_ascii c).

(** White space and line terminators among the code units below 256. *)
Definition is_white_space (c : ascii) : bool :=
  let n := code c in
  ((9 <=? n) && (n <=? 13)) || (n =? 32) || (n =? 160).

Definition is_digit (c : ascii) : bool :=
  let n := code c in (48 <=? n) && (n <=? 57).

Fixpoint drop_while (p : ascii -> bool) (l : list ascii) : list ascii :=
  match l with
  | [] => []
  | c :: l' => if p c then drop_while p l' else l
  end.

Fixpoint span (p : ascii -> bool) (l : list ascii)
  : list ascii * list ascii :=
  match l with
  | [] => ([], [])
  | c :: l' =>
    if p c then let '(a, b) := span p l' in (c :: a, b) else ([], l)
  end.

Definition trim (l : list ascii) : list ascii :=
  rev (drop_while is_white_space (rev (drop_while is_white_space l))).

(** The value of a digit in a radix up to 16, when it is one. *)
Definition digit_value (radix : Z) (c : ascii) : option Z :=
  let n := code c in
  let v :=
    if (48 <=? n) && (n <=? 57) then Some (n - 48)
    else if (97 <=? n) && (n <=? 102) then Some (n - 87)
    else if (65 <=? n) && (n <=? 70) then Some (n - 55)
    else None in
  match v with
  | Some d => if d <? radix then Some d else None
  | None => None
  end.

Fixpoint digits_value (radix : Z) (acc : Z) (l : list ascii) : option Z :=
  match l with
  | [] => Some acc
  | c :: l' =>
    match digit_value radix c with
    | Some d => digits_value radix (acc * radix + d) l'
    | None => None
    end
  end.

(** A non-empty run of digits of the radix, and nothing else. *)
Definition integer_literal (radix : Z) (l : list ascii) : option Z :=
  match l with
  | [] => None
  | _ => digits_value radix 0 l
  end.

(** [ExponentPart]: absent, or [e]/[E], an optional sign and digits. *)
Definition exponent_part (l : list ascii) : option Z :=
  match l with
  | [] => Some 0
  | c :: l' =>
    if (code c =? 101) || (code c =? 69) then
      match l' with
      | s :: l'' =>
        if code s =? 43 then integer_literal 10 l''
        else if code s =? 45 then option_map Z.opp (integer_literal 10 l'')
        else integer_literal 10 l'
      | [] => None
      end
    else None
  end.

(** [StrUnsignedDecimalLiteral] *)
Definition unsigned_decimal (neg : bool) (l : list ascii) : number :=
  if String.eqb (unchars l) "Infinity" then S754_infinity neg
  else
    let '(ip, rest) := span is_digit l in
    let '(fp, rest') :=
      match rest with
      | c :: r => if code c =? 46 then span is_digit r else ([], rest)
      | [] => ([], rest)
      end in
    match (ip ++ fp)%list with
    | [] => NaN
    | ds =>
      match digits_value 10 0 ds, exponent_part rest' with
      | Some m, Some e => round_decimal neg m (e - Z.of_nat (List.length fp))
      | _, _ => NaN
      end
    end.

(** [StringToNumber]: the Number value of a string, [NaN] when the string is
    not a [StringNumericLiteral]. *)
Definition StringToNumber (s : string) : number :=
  match trim (chars s) with
  | [] => pos_zero
  | c :: l =>
    if code c =? 43 then unsigned_decimal false l
    else if code c =? 45 then unsigned_decimal true l
    else
      let radix :=
        if code c =? 48 then
          match l with
          | x :: _ =>
            if (code x =? 120) || (code x =? 88) then Some 16
            else if (code x =? 111) || (code x =? 79) then Some 8
            else if (code x =? 98) || (code x =? 66) then Some 2
            else None
          | [] => None
          end
        else None in
      match radix with
      | Some r =>
        match integer_literal r (tl l) with
        | Some m => round_decimal false m 0
        | None => NaN
        end
      | None => unsigned_decimal false (c :: l)
      end
  end.

(** ** [Number::toString] in radix 10 *)

Definition decimal (z : Z) : string :=
  NilZero.string_of_uint (N.to_uint (Z.to_N z)).

Fixpoint zeros (n : nat) : string :=
  match n with
  | O => ""
  | S n' => String "0" (zeros n')
  end.

(** [p / q] scaled by [10^j], as a fraction. *)
Definition scale10 (p q j : Z) : Z * Z :=
  if 0 <=? j then (p * 10 ^ j, q) else (p, q * 10 ^ (- j)).

(** [10^n <= p / q] *)
Definition pow10_le (n p q : Z) : bool :=
  let '(p', q') := scale10 p q (- n) in q' <=? p'.

(** The [n] with [10^(n-1) <= p / q < 10^n]. *)
Definition decimal_exponent (p q : Z) : Z :=
  let est := (Z.log2 p - Z.log2 q) * 30103 / 100000 in
  if negb (pow10_le (est - 1) p q) then est - 1
  else if negb (pow10_le est p q) then est
  else if negb (pow10_le (est + 1) p q) then est + 1
  else est + 2.

(** The shortest [s] of [k] digits, [k] from the given one upwards, such that
    [s * 10^(n-k)] rounds to [x]; of two such [s] the closest to [x]. *)
Fixpoint shortest_digits (x : number) (p q n : Z) (fuel : nat) (k : Z)
  : Z * Z * Z :=
  let '(p', q') := scale10 p q (k - n) in
  let lo := p' / q' in
  let r := p' mod q' in
  let hi := lo + 1 in
  let ok s := number_eqb (round_decimal false s (n - k)) x in
  let first :=
    if (2 * r <? q') || ((2 * r =? q') && Z.even lo) then lo else hi in
  let second := if first =? lo then hi else lo in
  let found :=
    if ok first then Some first
    else if ok second then Some second
    else None in
  match found, fuel with
  | Some s, _ => if s =? 10 ^ k then (n + 1, k, 10 ^ (k - 1)) else (n, k, s)
  | None, S fuel' => shortest_digits x p q n fuel' (k + 1)
  | None, O => (n, k, first)
  end.

Definition exponent_suffix (n : Z) : string :=
  "e" ++ (if 0 <=? n - 1 then "+" else "-") ++ decimal (Z.abs (n - 1)).

Definition Number_toString (x : number) : string :=
  match x with
  | S754_nan => "NaN"
  | S754_zero _ => "0"
  | S754_infinity neg => if neg then "-Infinity" else "Infinity"
  | S754_finite neg m e =>
    let '(p, q) :=
      if 0 <=? e then (Zpos m * 2 ^ e, 1) else (Zpos m, 2 ^ (- e)) in
    let '(n, k, s) :=
      shortest_digits (S754_finite false m e) p q (decimal_exponent p q) 17 1 in
    let ds := decimal s in
    let body :=
      if (k <=? n) && (n <=? 21) then ds ++ zeros (Z.to_nat (n - k))
      else if (0 <? n) && (n <=? 21) then
        substring 0 (Z.to_nat n) ds ++ "." ++
        substring (Z.to_nat n) (Z.to_nat (k - n)) ds
      else if (-6 <? n) && (n <=? 0) then
        "0." ++ zeros (Z.to_nat (- n)) ++ ds
      else if k =? 1 then ds ++ exponent_suffix n
      else
        substring 0 1 ds ++ "." ++ substring 1 (Z.to_nat (k - 1)) ds
        ++ exponent_suffix n in
    if neg then "-" ++ body else body
  end.

(** ** Values

    What [JSON.parse] builds, and [undefined].  An object is the list of its
    own properties, a property being the first pair with its name; no value
    is callable. *)

Inductive value : Type :=
| VUndefined
| VNull
| VBool (b : bool)
| VNum (n : number)
| VStr (s : string)
| VArr (elements : list value)
| VObj (properties : list (string * value)).

Fixpoint lookup (k : string) (ps : list (string * value)) : option value :=
  match ps with
  | [] => None
  | (k', v) :: ps' => if String.eqb k k' then Some v else lookup k ps'
  end.

Definition has_own (k : string) (ps : list (string * value)) : bool :=
  match lookup k ps with
  | Some _ => true
  | None => false
  end.

(** [v.k], for a property name [k] that is neither an index, nor [length],
    nor a property of a built-in prototype (the names the program reads are
    none of these): an own property of an object, [undefined] on any other
    value that has properties, a [TypeError] on [null] and [undefined]. *)
Definition Get (v : value) (k : string) : completion value :=
  match v with
  | VUndefined | VNull => Throw TypeError
  | VObj ps =>
    match lookup k ps with
    | Some x => Return x
    | None => Return VUndefined
    end
  | _ => Return VUndefined
  end.

Definition is_zero_or_nan (n : number) : bool :=
  match n with
  | S754_zero _ | S754_nan => true
  | _ => false
  end.

Definition ToBoolean (v : value) : bool :=
  match v with
  | VUndefined | VNull => false
  | VBool b => b
  | VNum n => negb (is_zero_or_nan n)
  | VStr s => negb (String.eqb s "")
  | VArr _ | VObj _ => true
  end.

Definition typeof (v : value) : string :=
  match v with
  | VUndefined => "undefined"
  | VNull => "object"
  | VBool _ => "boolean"
  | VNum _ => "number"
  | VStr _ => "string"
  | VArr _ | VObj _ => "object"
  end.

(** [v === w] where [w] is a string or [undefined] *)
Definition strict_equal_string (v : value) (w : string) : bool :=
  match v with
  | VStr s => String.eqb s w
  | _ => false
  end.

Definition is_undefined (v : value) : bool :=
  match v with
  | VUndefined => true
  | _ => false
  end.

(** [a ?? b] *)
Definition nullish (a b : value) : value :=
  match a with
  | VUndefined | VNull => b
  | _ => a
  end.

(** [ToString].  An array is joined with commas, [null] and [undefined]
    elements as empty strings.  An object goes through
    [OrdinaryToPrimitive]: with no own [toString] it is
    [Object.prototype.toString], which answers ["[object Object]"]; an own
    [toString] is data, not callable, and hides it, and [valueOf] answers no
    primitive, so the conversion throws a [TypeError]. *)
Fixpoint ToString (v : value) : completion string :=
  match v with
  | VUndefined => Return "undefined"
  | VNull => Return "null"
  | VBool b => Return (if b then "true" else "false")
  | VNum n => Return (Number_toString n)
  | VStr s => Return s
  | VArr l =>
    (fix join (l : list value) : completion string :=
       match l with
       | [] => Return ""
       | x :: rest =>
         s <- match x with
              | VUndefined | VNull => Return ""
              | _ => ToString x
              end ;;
         match rest with
         | [] => Return s
         | _ => r <- join rest ;; Return (s ++ "," ++ r)
         end
       end) l
  | VObj ps =>
    if has_own "toString" ps then Throw TypeError
    else Return "[object Object]"
  end.

Definition ToPrimitive (v : value) : completion value :=
  match v with
  | VArr _ | VObj _ => s <- ToString v ;; Return (VStr s)
  | _ => Return v
  end.

Definition ToNumber (v : value) : completion number :=
  p <- ToPrimitive v ;;
  match p with
  | VUndefined => Return NaN
  | VNull => Return pos_zero
  | VBool b => Return (if b then of_Z 1 else pos_zero)
  | VNum n => Return n
  | VStr s => Return (StringToNumber s)
  | VArr _ | VObj _ => Throw TypeError
  end.

(** [Number(v)] and [String(v)], called as functions *)
Definition Number (v : value) : completion value :=
  n <- ToNumber v ;; Return (VNum n).

Definition String_ (v : value) : completion value :=
  s <- ToString v ;; Return (VStr s).

(** ** Dates

    A Date object holds a time value, milliseconds since the epoch, or [NaN]
    ([None] here) when it is invalid. *)

Definition Date : Type := option Z.

Definition TimeClip (t : number) : Date :=
  match t with
  | S754_zero _ => Some 0
  | S754_finite neg m e =>
    let limit := 8640000000000000 in
    let within :=
      if 0 <=? e then Zpos m * 2 ^ e <=? limit
      else Zpos m <=? limit * 2 ^ (- e) in
    let magnitude :=
      if 0 <=? e then Zpos m * 2 ^ e else Zpos m / 2 ^ (- e) in
    if within then Some (if neg then - magnitude else magnitude) else None
  | _ => None
  end.

Section Dates.

(** [Date.parse]: the time value a string denotes, [NaN] when it denotes
    none.  Outside the ISO format the recognised strings are the engine's
    choice, so the function is a parameter. *)
Variable Date_parse : string -> number.

(** [new Date(v)] *)
Definition Date_new (v : value) : completion Date :=
  p <- ToPrimitive v ;;
  match p with
  | VStr s => Return (TimeClip (Date_parse s))
  | _ => tv <- ToNumber p ;; Return (TimeClip tv)
  end.

End Dates.

Definition pad (width : nat) (z : Z) : string :=
  let ds := decimal z in
  zeros (width - String.length ds) ++ ds.

(** Year, month and day of the month of a day number (days since the
    epoch), in the proleptic Gregorian calendar. *)
Definition civil_from_days (day : Z) : Z * Z * Z :=
  let z := day + 719468 in
  let era := z / 146097 in
  let doe := z - era * 146097 in
  let yoe := (doe - doe / 1460 + doe / 36524 - doe / 146096) / 365 in
  let doy := doe - (365 * yoe + yoe / 4 - yoe / 100) in
  let mp := (5 * doy + 2) / 153 in
  let d := doy - (153 * mp + 2) / 5 + 1 in
  let m := if mp <? 10 then mp + 3 else mp - 9 in
  (yoe + era * 400 + (if m <=? 2 then 1 else 0), m, d).

Definition iso_format (t : Z) : string :=
  let '(y, m, d) := civil_from_days (t / 86400000) in
  let ms := t mod 86400000 in
  let year :=
    if (0 <=? y) && (y <=? 9999) then pad 4 y
    else (if y <? 0 then "-" else "+") ++ pad 6 (Z.abs y) in
  year ++ "-" ++ pad 2 m ++ "-" ++ pad 2 d ++ "T" ++
  pad 2 (ms / 3600000) ++ ":" ++ pad 2 (ms / 60000 mod 60) ++ ":" ++
  pad 2 (ms / 1000 mod 60) ++ "." ++ pad 3 (ms mod 1000) ++ "Z".

(** [d.toISOString()]: a [RangeError] on an invalid date. *)
Definition Date_toISOString (d : Date) : completion string :=
  match d with
  | Some t => Return (iso_format t)
  | None => Throw RangeError
  end.

(** ** Expressions of the program *)

(** [a && b]: [b] is evaluated only when [a] is truthy. *)
Definition and_then (a b : completion value) : completion value :=
  x <- a ;; if ToBoolean x then b else Return x.

(** [c ? t : e] *)
Definition cond {A : Type} (c : completion value) (t e : completion A)
  : completion A :=
  x <- c ;; if ToBoolean x then t else e.

(** [v.x.y] *)
Definition Get2 (v : value) (x y : string) : completion value :=
  o <- Get v x ;; Get o y.

(** [typeof v.x.y !== "undefined"] *)
Definition typeof_defined (v : value) (x y : string) : completion value :=
  p <- Get2 v x y ;; Return (VBool (negb (String.eqb (typeof p) "undefined"))).

(** [v.x.y !== undefined] *)
Definition not_undefined (v : value) (x y : string) : completion value :=
  p <- Get2 v x y ;; Return (VBool (negb (is_undefined p))).

(** [v.x.y === "N/A"] *)
Definition is_NA (v : value) (x y : string) : completion value :=
  p <- Get2 v x y ;; Return (VBool (strict_equal_string p "N/A")).

(** ** The normalizer: [mapToPrimitives] *)

Section Normalizer.

Variable Date_parse : string -> number.

(** The clock: the time value [new Date()] reads. *)
Variable now : Z.

Variable weatherData : value.

(** [weatherData.datetime_utc ? new Date(weatherData.datetime_utc) : new Date()] *)
Definition observedAt : completion Date :=
  cond (Get weatherData "datetime_utc")
    (d <- Get weatherData "datetime_utc" ;; Date_new Date_parse d)
    (Return (Some now)).

(** [(weatherData.location && weatherData.location.name)
     ? String(weatherData.location.name) : "Unknown"] *)
Definition locationName : completion value :=
  cond (and_then (Get weatherData "location")
                 (Get2 weatherData "location" "name"))
    (n <- Get2 weatherData "location" "name" ;; String_ n)
    (Return (VStr "Unknown")).

(** [(weatherData.clouds
      && typeof weatherData.clouds.cloudiness_percent !== "undefined")
     ? Number(weatherData.clouds.cloudiness_percent) : null], and the same
    shape for the six fields of [main] and [wind]. *)
Definition cloudiness : completion value :=
  cond (and_then (Get weatherData "clouds")
                 (typeof_defined weatherData "clouds" "cloudiness_percent"))
    (p <- Get2 weatherData "clouds" "cloudiness_percent" ;; Number p)
    (Return VNull).

Definition temperature : completion value :=
  cond (and_then (Get weatherData "main")
                 (typeof_defined weatherData "main" "temperature_c"))
    (p <- Get2 weatherData "main" "temperature_c" ;; Number p)
    (Return VNull).

Definition humidity : completion value :=
  cond (and_then (Get weatherData "main")
                 (typeof_defined weatherData "main" "humidity_percent"))
    (p <- Get2 weatherData "main" "humidity_percent" ;; Number p)
    (Return VNull).

Definition pressure : completion value :=
  cond (and_then (Get weatherData "main")
                 (typeof_defined weatherData "main" "pressure_hpa"))
    (p <- Get2 weatherData "main" "pressure_hpa" ;; Number p)
    (Return VNull).

(** [weatherData.precipitation
     && weatherData.precipitation.rain_3h_mm !== undefined
     ? (weatherData.precipitation.rain_3h_mm === "N/A"
        ? null : Number(weatherData.precipitation.rain_3h_mm))
     : null] *)
Definition rain3h : completion value :=
  cond (and_then (Get weatherData "precipitation")
                 (not_undefined weatherData "precipitation" "rain_3h_mm"))
    (cond (is_NA weatherData "precipitation" "rain_3h_mm")
       (Return VNull)
       (p <- Get2 weatherData "precipitation" "rain_3h_mm" ;; Number p))
    (Return VNull).

Definition snow3h : completion value :=
  cond (and_then (Get weatherData "precipitation")
                 (not_undefined weatherData "precipitation" "snow_3h_mm"))
    (cond (is_NA weatherData "precipitation" "snow_3h_mm")
       (Return VNull)
       (p <- Get2 weatherData "precipitation" "snow_3h_mm" ;; Number p))
    (Return VNull).

(** [weatherData.weather && weatherData.weather.description
     ? String(weatherData.weather.description) : null] *)
Definition weatherDesc : completion value :=
  cond (and_then (Get weatherData "weather")
                 (Get2 weatherData "weather" "description"))
    (d <- Get2 weatherData "weather" "description" ;; String_ d)
    (Return VNull).

Definition weatherIcon : completion value :=
  cond (and_then (Get weatherData "weather")
                 (Get2 weatherData "weather" "icon"))
    (i <- Get2 weatherData "weather" "icon" ;; String_ i)
    (Return VNull).

Definition windSpeed : completion value :=
  cond (and_then (Get weatherData "wind")
                 (typeof_defined weatherData "wind" "speed_ms"))
    (p <- Get2 weatherData "wind" "speed_ms" ;; Number p)
    (Return VNull).

Definition windGust : completion value :=
  cond (and_then (Get weatherData "wind")
                 (typeof_defined weatherData "wind" "gust_ms"))
    (p <- Get2 weatherData "wind" "gust_ms" ;; Number p)
    (Return VNull).

Definition windDeg : completion value :=
  cond (and_then (Get weatherData "wind")
                 (typeof_defined weatherData "wind" "direction_degrees"))
    (p <- Get2 weatherData "wind" "direction_degrees" ;; Number p)
    (Return VNull).

(** The object literal [rawPayload]; [x ?? null] on its first five members. *)
Definition rawPayload (weatherIcon humidity pressure windGust windDeg
                       rain3h snow3h : value) : value :=
  VObj [ ("icon", nullish weatherIcon VNull);
         ("humidity", nullish humidity VNull);
         ("pressure", nullish pressure VNull);
         ("wind_gust", nullish windGust VNull);
         ("wind_deg", nullish windDeg VNull);
         ("rain_3h", rain3h);
         ("snow_3h", snow3h) ].

(** The constants in the order the program computes them, then the
    returned object; [precipitation] is [rain3h ?? snow3h ?? null]. *)
Definition mapToPrimitives : completion value :=
  observedAt <- observedAt ;;
  locationName <- locationName ;;
  cloudiness <- cloudiness ;;
  temperature <- temperature ;;
  humidity <- humidity ;;
  pressure <- pressure ;;
  rain3h <- rain3h ;;
  snow3h <- snow3h ;;
  weatherDesc <- weatherDesc ;;
  weatherIcon <- weatherIcon ;;
  windSpeed <- windSpeed ;;
  windGust <- windGust ;;
  windDeg <- windDeg ;;
  let rawPayload :=
    rawPayload weatherIcon humidity pressure windGust windDeg rain3h snow3h in
  observed_at <- Date_toISOString observedAt ;;
  Return (VObj [ ("observed_at", VStr observed_at);
                 ("location", locationName);
                 ("clouds", cloudiness);
                 ("main", temperature);
                 ("precipitation", nullish (nullish rain3h snow3h) VNull);
                 ("weather", weatherDesc);
                 ("wind", windSpeed);
                 ("raw_payload", rawPayload) ]).

End Normalizer.

(** ** The world of a pipeline run: the backing store and the console *)

Definition table : Type := list value.

Record world : Type := {
  store : string -> table;
  console : list string
}.

(** Computations that read and write the world and may throw. *)
Definition M (A : Type) : Type := world -> completion A * world.

Definition retM {A : Type} (a : A) : M A := fun w => (Return a, w).

Definition throwM {A : Type} (e : exn) : M A := fun w => (Throw e, w).

Definition lift {A : Type} (c : completion A) : M A := fun w => (c, w).

Definition bindM {A B : Type} (c : M A) (k : A -> M B) : M B :=
  fun w =>
    match c w with
    | (Return a, w') => k a w'
    | (Throw e, w') => (Throw e, w')
    end.

Notation "x <~ c ;; k" := (bindM c (fun x => k))
  (at level 61, c at next level, right associativity).

(** [try { body } catch (err) { handler }] *)
Definition try_catchM {A : Type} (body : M A) (handler : exn -> M A) : M A :=
  fun w =>
    match body w with
    | (Return a, w') => (Return a, w')
    | (Throw e, w') => handler e w'
    end.

Definition logged (message : string) (w : world) : world :=
  {| store := store w; console := (console w ++ [message])%list |}.

Definition console_error (message : string) : M unit :=
  fun w => (Return tt, logged message w).

(** *** The HTTP client *)

Record Response : Type := {
  status : Z;
  json : completion value   (* what [res.json()] settles to *)
}.

(** [res.ok]: the status is in the range 200-299. *)
Definition ok (res : Response) : bool :=
  (200 <=? status res) && (status res <=? 299).

(** [fetch(url)] settles to the outcome the network gives. *)
Definition fetch (outcome : completion Response) (url : string) : M Response :=
  lift outcome.

(** *** The store client *)

(** What the store does with a statement: it applies it, it refuses it (the
    client resolves with an error object), or the call itself fails. *)
Inductive store_behaviour : Type :=
| StoreApplies
| StoreRefuses (error : list (string * value))
| StoreThrows (e : exn).

Definition same_key (key : string) (row record : value) : bool :=
  match Get row key, Get record key with
  | Return (VStr a), Return (VStr b) => String.eqb a b
  | _, _ => false
  end.

(** The row after an update: the record's columns, then the columns of the
    row the record does not set. *)
Definition overwrite (row record : value) : value :=
  match row, record with
  | VObj old, VObj new =>
    VObj (new ++ filter (fun kv => negb (has_own (fst kv) new)) old)%list
  | _, _ => record
  end.

(** Modelled from the spec: the store's upsert keyed on a column, which the
    database service carries out (it is no part of the repository).  "If a
    row with that id exists, its fields are overwritten in place; otherwise
    a new row is created with that id." *)
Fixpoint upsert_row (key : string) (record : value) (t : table) : table :=
  match t with
  | [] => [record]
  | row :: t' =>
    if same_key key row record then overwrite row record :: t'
    else row :: upsert_row key record t'
  end.

Definition selected (key : string) (record : value) (t : table) : table :=
  filter (fun row => same_key key row record) t.

(** What reaches the store of a value sent as JSON: a number that is not
    finite becomes [null], a property that is [undefined] is left out. *)
Fixpoint wire (v : value) : value :=
  match v with
  | VNum (S754_finite _ _ _) => v
  | VNum (S754_zero _) => VNum pos_zero
  | VNum _ => VNull
  | VArr l =>
    VArr (map (fun x => match x with VUndefined => VNull | _ => wire x end) l)
  | VObj ps =>
    VObj ((fix members (ps : list (string * value)) : list (string * value) :=
             match ps with
             | [] => []
             | (k, VUndefined) :: ps' => members ps'
             | (k, x) :: ps' => (k, wire x) :: members ps'
             end) ps)
  | _ => v
  end.

(** [supabase.from(name).upsert([record], { onConflict }).select()],
    awaited: the pair of [data] and [error] it resolves to. *)
Definition upsert (how : store_behaviour) (name : string) (record : value)
  (onConflict : string) : M (value * value) :=
  fun w =>
    match how with
    | StoreThrows e => (Throw e, w)
    | StoreRefuses error => (Return (VNull, VObj error), w)
    | StoreApplies =>
      let sent := wire record in
      let t := upsert_row onConflict sent (store w name) in
      (Return (VArr (selected onConflict sent t), VNull),
       {| store := fun n => if String.eqb n name then t else store w n;
          console := console w |})
    end.

(** ** The pipeline: [pushObservation] *)

(** [{ ok: true, data }] and [{ ok: false, error }]; the error is the
    store's error object or the caught exception. *)
Inductive failure : Type :=
| StoreError (error : value)
| Caught (err : exn).

Inductive result : Type :=
| Pushed (data : value)
| NotPushed (error : failure).

Definition result_ok (r : result) : bool :=
  match r with
  | Pushed _ => true
  | NotPushed _ => false
  end.

Definition weatherUrl : string := "https://soil-api-vgqa.vercel.app/current".

Section Pipeline.

Variable Date_parse : string -> number.

(** The configured id of the single target row. *)
Variable PUSH_TARGET_ID : string.

(** What the outside does during one run: the clock, the outcome of the
    fetch and the behaviour of the store. *)
Variable now : Z.
Variable network : completion Response.
Variable how : store_behaviour.

Definition record (payload : value) : completion value :=
  observed_at <- Get payload "observed_at" ;;
  location <- Get payload "location" ;;
  clouds <- Get payload "clouds" ;;
  main <- Get payload "main" ;;
  precipitation <- Get payload "precipitation" ;;
  weather <- Get payload "weather" ;;
  wind <- Get payload "wind" ;;
  raw_payload <- Get payload "raw_payload" ;;
  Return (VObj [ ("id", VStr PUSH_TARGET_ID);
                 ("observed_at", observed_at);
                 ("location", location);
                 ("location_point", VNull);
                 ("clouds", clouds);
                 ("main", main);
                 ("precipitation", precipitation);
                 ("weather", weather);
                 ("wind", wind);
                 ("raw_payload", raw_payload) ]).

(** The body of the [try] block. *)
Definition pushObservation_try : M result :=
  res <~ fetch network weatherUrl ;;
  if negb (ok res) then
    throwM (Error ("fetch status " ++ Number_toString (of_Z (status res))))
  else
    weatherData <~ lift (json res) ;;
    payload <~ lift (mapToPrimitives Date_parse now weatherData) ;;
    record <~ lift (record payload) ;;
    reply <~ upsert how "weather_observations" record "id" ;;
    let '(data, error) := reply in
    if ToBoolean error then
      _ <~ console_error "Supabase upsert error:" ;;
      retM (NotPushed (StoreError error))
    else retM (Pushed data).

Definition pushObservation : M result :=
  try_catchM pushObservation_try
    (fun err =>
       _ <~ console_error "Error pushing observation:" ;;
       retM (NotPushed (Caught err))).

End Pipeline.

(** What the [catch] block leaves: the failure and the logged message. *)
Definition caught (e : exn) (w : world) : completion result * world :=
  (Return (NotPushed (Caught e)), logged "Error pushing observation:" w).

(** ** The scheduler: [startPusher] and the [/start] and [/stop] handlers *)

(** Who called [pushObservation]. *)
Inductive origin : Type :=
| InitialPush
| TimerPush (handle : nat).

(** The module variable [intervalHandle] ([None] for [null]; a timer object
    is truthy), the repeating timers the runtime holds, each with its delay
    in milliseconds, the next fresh timer, and the calls of
    [pushObservation] made so far. *)
Record scheduler : Type := {
  intervalHandle : option nat;
  timers : list (nat * number);
  next_timer : nat;
  launched : list origin
}.

(** The state at process start, before [app.listen] calls back. *)
Definition idle : scheduler :=
  {| intervalHandle := None; timers := []; next_timer := 0; launched := [] |}.

(** A response of the control surface. *)
Inductive body : Type :=
| Json (v : value)
| Text (s : string).

Record reply : Type := {
  http_status : Z;
  content : body
}.

Section Scheduler.

(** [Number(process.env.PUSH_INTERVAL_SECONDS ?? 30)] *)
Variable INTERVAL_SECONDS : number.

Definition startPusher (s : scheduler) : scheduler :=
  match intervalHandle s with
  | Some _ => s
  | None =>
    let h := next_timer s in
    {| intervalHandle := Some h;
       timers :=
         (timers s ++ [(h, SFmul prec emax INTERVAL_SECONDS (of_Z 1000))])%list;
       next_timer := S h;
       launched := (launched s ++ [InitialPush])%list |}
  end.

(** [clearInterval(h)] *)
Definition clearInterval (h : nat) (ts : list (nat * number))
  : list (nat * number) :=
  filter (fun t => negb (Nat.eqb (fst t) h)) ts.

Definition post_start (s : scheduler) : reply * scheduler :=
  ({| http_status := 200;
      content := Json (VObj [ ("status", VStr "started");
                              ("interval_seconds", VNum INTERVAL_SECONDS) ]) |},
   startPusher s).

Definition get_start (s : scheduler) : reply * scheduler :=
  ({| http_status := 200;
      content := Text ("started; interval_seconds="
                       ++ Number_toString INTERVAL_SECONDS) |},
   startPusher s).

Definition post_stop (s : scheduler) : reply * scheduler :=
  match intervalHandle s with
  | None =>
    ({| http_status := 400; content := Json (VObj [ ("status", VStr "not_running") ]) |},
     s)
  | Some h =>
    ({| http_status := 200; content := Json (VObj [ ("status", VStr "stopped") ]) |},
     {| intervalHandle := None;
        timers := clearInterval h (timers s);
        next_timer := next_timer s;
        launched := launched s |})
  end.

Definition get_stop (s : scheduler) : reply * scheduler :=
  match intervalHandle s with
  | None => ({| http_status := 400; content := Text "not_running" |}, s)
  | Some h =>
    ({| http_status := 200; content := Text "stopped" |},
     {| intervalHandle := None;
        timers := clearInterval h (timers s);
        next_timer := next_timer s;
        launched := launched s |})
  end.

(** One interval elapses: every timer the runtime holds fires once, and
    its callback calls [pushObservation]. *)
Definition tick (s : scheduler) : scheduler :=
  {| intervalHandle := intervalHandle s;
     timers := timers s;
     next_timer := next_timer s;
     launched :=
       (launched s ++ map (fun t => TimerPush (fst t)) (timers s))%list |}.

(** What happens to a running process. *)
Inductive event : Type :=
| PostStart
| GetStart
| PostStop
| GetStop
| Tick.

Definition step (s : scheduler) (e : event) : scheduler :=
  match e with
  | PostStart => snd (post_start s)
  | GetStart => snd (get_start s)
  | PostStop => snd (post_stop s)
  | GetStop => snd (get_stop s)
  | Tick => tick s
  end.

(** The process: [app.listen] calls [startPusher] once, then events come
    in any order. *)
Definition run (events : list event) : scheduler :=
  fold_left step events (startPusher idle).

End Scheduler.

(** ** Shapes shared by the fields of the normalizer *)

(** The value of [v.x.y] when [v.x] is truthy. *)
Definition member (v : value) (x y : string) : option value :=
  match Get v x with
  | Return o =>
    if ToBoolean o then
      match Get o y with
      | Return p => Some p
      | Throw _ => None
      end
    else None
  | Throw _ => None
  end.

(** The shape of [cloudiness], [temperature], [humidity], [pressure],
    [windSpeed], [windGust] and [windDeg]. *)
Definition numeric_field (v : value) (x y : string) : completion value :=
  cond (and_then (Get v x) (typeof_defined v x y))
    (p <- Get2 v x y ;; Number p)
    (Return VNull).

(** The shape of [rain3h] and [snow3h]. *)
Definition guarded_numeric_field (v : value) (x y : string)
  : completion value :=
  cond (and_then (Get v x) (not_undefined v x y))
    (cond (is_NA v x y) (Return VNull) (p <- Get2 v x y ;; Number p))
    (Return VNull).

(** The shape of [locationName], [weatherDesc] and [weatherIcon]. *)
Definition string_field (v : value) (x y : string) (default : value)
  : completion value :=
  cond (and_then (Get v x) (Get2 v x y))
    (p <- Get2 v x y ;; String_ p)
    (Return default).

(** [null] and [undefined] have no properties to read. *)
Definition nullish_value (v : value) : bool :=
  match v with
  | VUndefined | VNull => true
  | _ => false
  end.

(** A value [String] and [Number] convert without throwing. *)
Definition convertible (v : value) : bool :=
  match ToString v with
  | Return _ => true
  | Throw _ => false
  end.

Definition number_or_null (v : value) : bool :=
  match v with
  | VNull | VNum _ => true
  | _ => false
  end.

Definition string_or_null (v : value) : bool :=
  match v with
  | VNull | VStr _ => true
  | _ => false
  end.

Definition is_string (v : value) : bool :=
  match v with
  | VStr _ => true
  | _ => false
  end.

(** A string, number, boolean or [null]: no object, no array, and not
    [undefined]. *)
Definition primitive (v : value) : bool :=
  match v with
  | VNull | VBool _ | VNum _ | VStr _ => true
  | _ => false
  end.

(** The members the normalizer converts with [String] or [Number]. *)
Definition converted_members : list (string * string) :=
  [ ("location", "name");
    ("clouds", "cloudiness_percent");
    ("main", "temperature_c");
    ("main", "humidity_percent");
    ("main", "pressure_hpa");
    ("precipitation", "rain_3h_mm");
    ("precipitation", "snow_3h_mm");
    ("weather", "description");
    ("weather", "icon");
    ("wind", "speed_ms");
    ("wind", "gust_ms");
    ("wind", "direction_degrees") ].

Definition member_convertible (v : value) (xy : string * string) : bool :=
  match member v (fst xy) (snd xy) with
  | Some p => convertible p
  | None => true
  end.

Definition members_convertible (v : value) : bool :=
  forallb (member_convertible v) converted_members.

(** [datetime_utc] is falsy, or [new Date] makes a valid date of it. *)
Definition valid_date (Date_parse : string -> number) (v : value) : bool :=
  match Get v "datetime_utc" with
  | Return d =>
    if ToBoolean d then
      match Date_new Date_parse d with
      | Return (Some _) => true
      | _ => false
      end
    else true
  | Throw _ => false
  end.

(** [v.x.y] is missing: [v.x] is falsy (absent, [null], ...), or it has no
    [y]. *)
Definition missing (v : value) (x y : string) : Prop :=
  member v x y = None \/ member v x y = Some VUndefined.

(** ** Sequences of pipeline runs *)

(** What the outside does during one run. *)
Record outside : Type := {
  clock : Z;
  network : completion Response;
  behaviour : store_behaviour
}.

Definition run_once (Date_parse : string -> number) (PUSH_TARGET_ID : string)
  (o : outside) (w : world) : completion result * world :=
  pushObservation Date_parse PUSH_TARGET_ID (clock o) (network o) (behaviour o) w.

Definition run_all (Date_parse : string -> number) (PUSH_TARGET_ID : string)
  (os : list outside) (w : world) : world :=
  fold_left (fun w o => snd (run_once Date_parse PUSH_TARGET_ID o w)) os w.

(** The rows of a table that carry a given id. *)
Definition has_id (id : string) (row : value) : bool :=
  match Get row "id" with
  | Return (VStr a) => String.eqb a id
  | _ => false
  end.

Definition rows_with_id (id : string) (t : table) : nat :=
  List.length (filter (has_id id) t).

(** ** An engine's [Date.parse], for the examples

    [Date_parse_iso] recognises the format [toISOString] writes with a
    four-digit year, [YYYY-MM-DDTHH:mm:ss.sssZ], and no other string. *)

Definition days_from_civil (y m d : Z) : Z :=
  let y' := if m <=? 2 then y - 1 else y in
  let era := y' / 400 in
  let yoe := y' - era * 400 in
  let doy := (153 * (if 2 <? m then m - 3 else m + 9) + 2) / 5 + d - 1 in
  let doe := yoe * 365 + yoe / 4 - yoe / 100 + doy in
  era * 146097 + doe - 719468.

Definition days_in_month (y m : Z) : Z :=
  if m =? 2 then
    if ((y mod 4 =? 0) && negb (y mod 100 =? 0)) || (y mod 400 =? 0)
    then 29 else 28
  else if (m =? 4) || (m =? 6) || (m =? 9) || (m =? 11) then 30
  else 31.

Definition number_at (start len : nat) (s : string) : option Z :=
  integer_literal 10 (chars (substring start len s)).

Definition Date_parse_iso (s : string) : number :=
  let sep i c := String.eqb (substring i 1 s) c in
  if (String.length s =? 24)%nat && sep 4%nat "-" && sep 7%nat "-"
     && sep 10%nat "T" && sep 13%nat ":" && sep 16%nat ":"
     && sep 19%nat "." && sep 23%nat "Z"
  then
    match number_at 0 4 s, number_at 5 2 s, number_at 8 2 s,
          number_at 11 2 s, number_at 14 2 s, number_at 17 2 s,
          number_at 20 3 s with
    | Some y, Some m, Some d, Some hh, Some mm, Some ss, Some ms =>
      if (1 <=? m) && (m <=? 12) && (1 <=? d) && (d <=? days_in_month y m)
         && (hh <? 24) && (mm <? 60) && (ss <? 60)
      then of_Z (days_from_civil y m d * 86400000 + hh * 3600000
                 + mm * 60000 + ss * 1000 + ms)
      else NaN
    | _, _, _, _, _, _, _ => NaN
    end
  else NaN.

(** ** Example documents *)

Definition num (s : string) : value := VNum (StringToNumber s).

(** The document of the end-to-end scenario. *)
Definition doc_scenario : value :=
  VObj [ ("main", VObj [ ("temperature_c", num "21.5");
                         ("humidity_percent", VStr "N/A") ]);
         ("weather", VObj [ ("description", VStr "Clear") ]) ].

(** ["N/A"] in each of the nine numeric source fields. *)
Definition doc_not_available : value :=
  VObj [ ("clouds", VObj [ ("cloudiness_percent", VStr "N/A") ]);
         ("main", VObj [ ("temperature_c", VStr "N/A");
                         ("humidity_percent", VStr "N/A");
                         ("pressure_hpa", VStr "N/A") ]);
         ("precipitation", VObj [ ("rain_3h_mm", VStr "N/A");
                                  ("snow_3h_mm", VStr "N/A") ]);
         ("wind", VObj [ ("speed_ms", VStr "N/A");
                         ("gust_ms", VStr "N/A");
                         ("direction_degrees", VStr "N/A") ]) ].

(** Rain and snow both reported. *)
Definition doc_rain_and_snow : value :=
  VObj [ ("datetime_utc", VStr "2024-02-29T12:30:00.000Z");
         ("location", VObj [ ("name", VStr "Mbombela") ]);
         ("precipitation", VObj [ ("rain_3h_mm", num "1.5");
                                  ("snow_3h_mm", num "2") ]) ].

(** Every string field present and empty, every numeric field zero. *)
Definition doc_empty_and_zero : value :=
  VObj [ ("datetime_utc", VStr "");
         ("location", VObj [ ("name", VStr "") ]);
         ("clouds", VObj [ ("cloudiness_percent", num "0") ]);
         ("main", VObj [ ("temperature_c", num "0");
                         ("humidity_percent", num "0");
                         ("pressure_hpa", num "0") ]);
         ("precipitation", VObj [ ("rain_3h_mm", num "0");
                                  ("snow_3h_mm", num "0") ]);
         ("weather", VObj [ ("description", VStr ""); ("icon", VStr "") ]);
         ("wind", VObj [ ("speed_ms", num "0");
                         ("gust_ms", num "0");
                         ("direction_degrees", num "0") ]) ].

(** The table the pipeline writes. *)
Definition observations (w : world) : table := store w "weather_observations".

(** An empty store and a silent console. *)
Definition empty_world : world := {| store := fun _ => []; console := [] |}.

(** Three runs: a push that is applied, a fetch answered 503, a second push
    that is applied. *)
Definition three_runs : list outside :=
  [ {| clock := 1700000000000;
       network := Return {| status := 200; json := Return doc_scenario |};
       behaviour := StoreApplies |};
    {| clock := 1700000030000;
       network := Return {| status := 503; json := Throw SyntaxError |};
       behaviour := StoreApplies |};
    {| clock := 1700000060000;
       network := Return {| status := 200; json := Return doc_rain_and_snow |};
       behaviour := StoreApplies |} ].

(** The variable [intervalHandle] and the timers of the runtime agree: no
    handle and no timer, or a handle and that one timer. *)
Definition consistent (s : scheduler) : Prop :=
  match intervalHandle s with
  | None => timers s = []
  | Some h => exists delay, timers s = [(h, delay)]
  end.

(** ** What the normalizer reads, and where each member goes *)

(** The members of the document itself that the normalizer reads. *)
Definition top_level_members : list string :=
  [ "datetime_utc"; "location"; "clouds"; "main"; "precipitation";
    "weather"; "wind" ].

(** Each of them is absent or falsy (also: the document is no object). *)
Definition all_falsy (v : value) : bool :=
  forallb
    (fun x =>
       match Get v x with
       | Return o => negb (ToBoolean o)
       | Throw _ => false
       end)
    top_level_members.

(** The observation made of the defaults alone. *)
Definition default_observation (now : Z) : value :=
  VObj [ ("observed_at", VStr (iso_format now));
         ("location", VStr "Unknown");
         ("clouds", VNull);
         ("main", VNull);
         ("precipitation", VNull);
         ("weather", VNull);
         ("wind", VNull);
         ("raw_payload",
          VObj [ ("icon", VNull);
                 ("humidity", VNull);
                 ("pressure", VNull);
                 ("wind_gust", VNull);
                 ("wind_deg", VNull);
                 ("rain_3h", VNull);
                 ("snow_3h", VNull) ]) ].

(** [out.k1.k2...] *)
Fixpoint output_at (out : value) (path : list string) : completion value :=
  match path with
  | [] => Return out
  | k :: path' => o <- Get out k ;; output_at o path'
  end.

(** The numeric source members, each with the place of the observation it
    is written to. *)
Definition numeric_outputs : list (string * string * list string) :=
  [ ("clouds", "cloudiness_percent", ["clouds"]);
    ("main", "temperature_c", ["main"]);
    ("wind", "speed_ms", ["wind"]);
    ("main", "humidity_percent", ["raw_payload"; "humidity"]);
    ("main", "pressure_hpa", ["raw_payload"; "pressure"]);
    ("wind", "gust_ms", ["raw_payload"; "wind_gust"]);
    ("wind", "direction_degrees", ["raw_payload"; "wind_deg"]);
    ("precipitation", "rain_3h_mm", ["raw_payload"; "rain_3h"]);
    ("precipitation", "snow_3h_mm", ["raw_payload"; "snow_3h"]) ].

(** The same for the members converted with [String]. *)
Definition string_outputs : list (string * string * list string) :=
  [ ("location", "name", ["location"]);
    ("weather", "description", ["weather"]);
    ("weather", "icon", ["raw_payload"; "icon"]) ].

(** The scenario document with members the normalizer does not read. *)
Definition doc_scenario_and_more : value :=
  VObj [ ("sys", VObj [ ("country", VStr "ZA") ]);
         ("main", VObj [ ("feels_like_c", num "20.1");
                         ("temperature_c", num "21.5");
                         ("humidity_percent", VStr "N/A") ]);
         ("weather", VObj [ ("description", VStr "Clear");
                            ("id", num "800") ]);
         ("visibility_m", num "10000") ].

(** [null], [false], [true] and the empty string where numbers belong, and
    a number and a non-empty string where strings belong. *)
Definition doc_wrong_types : value :=
  VObj [ ("datetime_utc", num "1709209800000.5");
         ("location", VObj [ ("name", num "1200") ]);
         ("clouds", VObj [ ("cloudiness_percent", VNull) ]);
         ("main", VObj [ ("temperature_c", VBool false);
                         ("humidity_percent", VStr "");
                         ("pressure_hpa", VBool true) ]);
         ("precipitation", VObj [ ("rain_3h_mm", VNull);
                                  ("snow_3h_mm", num "4") ]);
         ("weather", VObj [ ("description", VStr "Rain");
                            ("icon", VStr "10d") ]) ].

(** A body that is JSON but no weather document. *)
Definition doc_error_body : value :=
  VObj [ ("cod", VStr "404");
         ("message", VStr "city not found");
         ("main", VNull) ].

(** ** A run that reaches the store and is applied *)

Definition succeeds (Date_parse : string -> number) (o : outside) : bool :=
  match network o with
  | Return res =>
    ok res &&
    match json res with
    | Return raw =>
      match mapToPrimitives Date_parse (clock o) raw with
      | Return _ =>
        match behaviour o with
        | StoreApplies => true
        | _ => false
        end
      | Throw _ => false
      end
    | Throw _ => false
    end
  | Throw _ => false
  end.

(** ** The [/push-now] handlers *)

(** [{ status: "pushed", data }], [{ status: "error", error }], or text. *)
Inductive push_content : Type :=
| PushedBody (data : value)
| ErrorBody (error : failure)
| Plain (text : string).

Record push_reply : Type := {
  push_status : Z;
  push_body : push_content
}.

Section PushNow.

Variable Date_parse : string -> number.
Variable PUSH_TARGET_ID : string.
Variable o : outside.

(** [app.post("/push-now", ...)] *)
Definition post_push_now : M push_reply :=
  result <~ pushObservation Date_parse PUSH_TARGET_ID
              (clock o) (network o) (behaviour o) ;;
  match result with
  | Pushed data =>
    retM {| push_status := 200; push_body := PushedBody data |}
  | NotPushed error =>
    retM {| push_status := 500; push_body := ErrorBody error |}
  end.

(** [app.get("/push-now", ...)] *)
Definition get_push_now : M push_reply :=
  result <~ pushObservation Date_parse PUSH_TARGET_ID
              (clock o) (network o) (behaviour o) ;;
  if result_ok result
  then retM {| push_status := 200; push_body := Plain "pushed" |}
  else retM {| push_status := 500; push_body := Plain "error" |}.

End PushNow.

(** A fetch answered with a document whose [datetime_utc] is no date. *)
Definition run_with_bad_date : outside :=
  {| clock := 1700000000000;
     network :=
       Return {| status := 200;
                 json := Return (VObj [ ("datetime_utc", VStr "yesterday");
                                        ("main", VObj [ ("temperature_c",
                                                         num "21.5") ]) ]) |};
     behaviour := StoreApplies |}.

(** The row a run sends to the store, when the store applies it. *)
Definition row_sent (Date_parse : string -> number) (PUSH_TARGET_ID : string)
  (o : outside) : option value :=
  match network o with
  | Return res =>
    if ok res then
      match json res with
      | Return raw =>
        match mapToPrimitives Date_parse (clock o) raw with
        | Return payload =>
          match record PUSH_TARGET_ID payload, behaviour o with
          | Return row, StoreApplies => Some (wire row)
          | _, _ => None
          end
        | Throw _ => None
        end
      | Throw _ => None
      end
    else None
  | Throw _ => None
  end.

(** The row of the last run that sent one. *)
Fixpoint last_row_sent (Date_parse : string -> number)
  (PUSH_TARGET_ID : string) (os : list outside) (before : option value)
  : option value :=
  match os with
  | [] => before
  | o :: os' =>
    last_row_sent Date_parse PUSH_TARGET_ID os'
      (match row_sent Date_parse PUSH_TARGET_ID o with
       | Some row => Some row
       | None => before
       end)
  end.

(** A row as the pipeline writes it: the ten columns of [record]. *)
Definition pipeline_row (id : string) (row : value) : Prop :=
  exists observed_at location clouds main precipitation weather wind
         raw_payload,
    row = VObj [ ("id", VStr id);
                 ("observed_at", observed_at);
                 ("location", location);
                 ("location_point", VNull);
                 ("clouds", clouds);
                 ("main", main);
                 ("precipitation", precipitation);
                 ("weather", weather);
                 ("wind", wind);
                 ("raw_payload", raw_payload) ].

(** The table that holds a row, or none. *)
Definition table_of (row : option value) : table :=
  match row with
  | Some r => [r]
  | None => []
  end.

(** ** Configuration and the runtime's timers *)

(** [process.env.NAME]: a string, or [undefined] when the variable is not
    set. *)
Definition env_value (v : option string) : value :=
  match v with
  | Some s => VStr s
  | None => VUndefined
  end.

(** [Number(process.env.PUSH_INTERVAL_SECONDS ?? 30)] *)
Definition INTERVAL_SECONDS_of (PUSH_INTERVAL_SECONDS : option string)
  : completion number :=
  ToNumber (nullish (env_value PUSH_INTERVAL_SECONDS) (VNum (of_Z 30))).

(** The delay a timer of the runtime runs with: [setInterval] replaces a
    delay that is not between 1 and 2147483647, [NaN] included, by 1. *)
Definition timer_delay (after : number) : number :=
  if SFleb (of_Z 1) after && SFleb after (of_Z 2147483647) then after
  else of_Z 1.

(** The pushes an event launches, read off the state it finds. *)
Definition pushes_of (s : scheduler) (e : event) : list origin :=
  match e, intervalHandle s with
  | (PostStart | GetStart), None => [InitialPush]
  | Tick, Some h => [TimerPush h]
  | _, _ => []
  end.

(** The places of a row, and of an observation, that hold numbers. *)
Definition numeric_columns : list (list string) :=
  [ ["clouds"]; ["main"]; ["precipitation"]; ["wind"];
    ["raw_payload"; "humidity"]; ["raw_payload"; "pressure"];
    ["raw_payload"; "wind_gust"]; ["raw_payload"; "wind_deg"];
    ["raw_payload"; "rain_3h"]; ["raw_payload"; "snow_3h"] ].

(** [null] or a finite number: what JSON can carry of a number. *)
Definition finite_or_null (v : value) : bool :=
  match v with
  | VNull => true
  | VNum (S754_finite _ _ _) | VNum (S754_zero _) => true
  | _ => false
  end.

(** A fetch answered with ["N/A"] in every numeric member. *)
Definition run_not_available : outside :=
  {| clock := 1700000000000;
     network := Return {| status := 200; json := Return doc_not_available |};
     behaviour := StoreApplies |}.

(** A rain amount that is JSON [null] beside a snow amount. *)
Definition doc_null_rain : value :=
  VObj [ ("precipitation", VObj [ ("rain_3h_mm", VNull);
                                  ("snow_3h_mm", num "4") ]) ].

(** * Properties *)

(** ** The host functions on examples *)
Example StringToNumber_NA : StringToNumber "N/A" = NaN.
Proof. reflexivity. Qed.

Example StringToNumber_21_5 :
  StringToNumber " 21.5 " = S754_finite false 6051711999279104 (-48).
Proof. vm_compute. reflexivity. Qed.

Example Number_toString_21_5 : Number_toString (StringToNumber "21.50") = "21.5".
Proof. vm_compute. reflexivity. Qed.

Example Number_toString_tenth : Number_toString (StringToNumber ".1") = "0.1".
Proof. vm_compute. reflexivity. Qed.

Example Number_toString_big :
  Number_toString (StringToNumber "123456789012345678901") =
  "123456789012345680000".
Proof. vm_compute. reflexivity. Qed.

Example Number_toString_exp :
  Number_toString (StringToNumber "-1234e20") = "-1.234e+23".
Proof. vm_compute. reflexivity. Qed.

Example Number_toString_small :
  Number_toString (StringToNumber "0.0000001") = "1e-7".
Proof. vm_compute. reflexivity. Qed.

Example iso_format_epoch : iso_format 0 = "1970-01-01T00:00:00.000Z".
Proof. vm_compute. reflexivity. Qed.

Example iso_format_2023 :
  iso_format 1700000000123 = "2023-11-14T22:13:20.123Z".
Proof. vm_compute. reflexivity. Qed.

Example iso_format_before_epoch : iso_format (-1) = "1969-12-31T23:59:59.999Z".
Proof. vm_compute. reflexivity. Qed.

Example iso_format_last :
  iso_format 8640000000000000 = "+275760-09-13T00:00:00.000Z".
Proof. vm_compute. reflexivity. Qed.

(** ** Reading properties *)

Lemma Get_returns (v : value) (k : string) :
  nullish_value v = false -> exists x, Get v k = Return x.
Proof.
  destruct v; simpl; try discriminate; intros _; eauto.
  destruct (lookup k properties); eauto.
Qed.

Lemma truthy_not_nullish (v : value) :
  ToBoolean v = true -> nullish_value v = false.
Proof. destruct v; simpl; congruence. Qed.

Lemma Get_throws (v : value) (k : string) :
  nullish_value v = true -> Get v k = Throw TypeError.
Proof. destruct v; simpl; congruence. Qed.

Lemma typeof_undefined (p : value) :
  String.eqb (typeof p) "undefined" = is_undefined p.
Proof. destruct p; reflexivity. Qed.

(** ** The three shapes, by the member they read *)

Lemma numeric_field_member (v : value) (x y : string) :
  nullish_value v = false ->
  numeric_field v x y =
  match member v x y with
  | Some p => if is_undefined p then Return VNull else Number p
  | None => Return VNull
  end.
Proof.
  intros Hv. unfold numeric_field, member, cond, and_then, typeof_defined, Get2.
  destruct (Get_returns v x Hv) as [o Ho]. rewrite Ho. simpl.
  destruct (ToBoolean o) eqn:Hb; simpl; [|rewrite Hb; reflexivity].
  destruct (Get_returns o y (truthy_not_nullish o Hb)) as [p Hp].
  rewrite Hp. simpl. rewrite typeof_undefined.
  destruct (is_undefined p); reflexivity.
Qed.

Lemma guarded_numeric_field_member (v : value) (x y : string) :
  nullish_value v = false ->
  guarded_numeric_field v x y =
  match member v x y with
  | Some p =>
    if is_undefined p then Return VNull
    else if strict_equal_string p "N/A" then Return VNull
    else Number p
  | None => Return VNull
  end.
Proof.
  intros Hv.
  unfold guarded_numeric_field, member, cond, and_then, not_undefined, is_NA,
    Get2.
  destruct (Get_returns v x Hv) as [o Ho]. rewrite Ho. simpl.
  destruct (ToBoolean o) eqn:Hb; simpl; [|rewrite Hb; reflexivity].
  destruct (Get_returns o y (truthy_not_nullish o Hb)) as [p Hp].
  rewrite Hp. simpl.
  destruct (is_undefined p); simpl; [reflexivity|].
  destruct (strict_equal_string p "N/A"); reflexivity.
Qed.

Lemma string_field_member (v : value) (x y : string) (default : value) :
  nullish_value v = false ->
  string_field v x y default =
  match member v x y with
  | Some p => if ToBoolean p then String_ p else Return default
  | None => Return default
  end.
Proof.
  intros Hv. unfold string_field, member, cond, and_then, Get2.
  destruct (Get_returns v x Hv) as [o Ho]. rewrite Ho. simpl.
  destruct (ToBoolean o) eqn:Hb; simpl; [|rewrite Hb; reflexivity].
  destruct (Get_returns o y (truthy_not_nullish o Hb)) as [p Hp].
  rewrite Hp. simpl.
  destruct (ToBoolean p); reflexivity.
Qed.

Lemma Number_number (p v : value) :
  Number p = Return v -> exists n, v = VNum n.
Proof.
  unfold Number, bind. destruct (ToNumber p); [|discriminate].
  intros H. injection H as <-. eauto.
Qed.

Lemma String_string (p v : value) :
  String_ p = Return v -> exists s, v = VStr s.
Proof.
  unfold String_, bind. destruct (ToString p); [|discriminate].
  intros H. injection H as <-. eauto.
Qed.

Lemma numeric_field_type (w : value) (x y : string) (v : value) :
  numeric_field w x y = Return v -> number_or_null v = true.
Proof.
  destruct (nullish_value w) eqn:Hw.
  - unfold numeric_field, cond, and_then. rewrite (Get_throws w x Hw).
    discriminate.
  - rewrite (numeric_field_member w x y Hw).
    destruct (member w x y) as [p|]; [destruct (is_undefined p)|];
      intros H; try (injection H as <-; reflexivity).
    destruct (Number_number _ _ H) as [n ->]. reflexivity.
Qed.

Lemma guarded_numeric_field_type (w : value) (x y : string) (v : value) :
  guarded_numeric_field w x y = Return v -> number_or_null v = true.
Proof.
  destruct (nullish_value w) eqn:Hw.
  - unfold guarded_numeric_field, cond, and_then. rewrite (Get_throws w x Hw).
    discriminate.
  - rewrite (guarded_numeric_field_member w x y Hw).
    destruct (member w x y) as [p|];
      [destruct (is_undefined p); [|destruct (strict_equal_string p "N/A")]|];
      intros H; try (injection H as <-; reflexivity).
    destruct (Number_number _ _ H) as [n ->]. reflexivity.
Qed.

Lemma string_field_type (w : value) (x y : string) (default v : value) :
  string_field w x y default = Return v ->
  v = default \/ is_string v = true.
Proof.
  destruct (nullish_value w) eqn:Hw.
  - unfold string_field, cond, and_then. rewrite (Get_throws w x Hw).
    discriminate.
  - rewrite (string_field_member w x y default Hw).
    destruct (member w x y) as [p|]; [destruct (ToBoolean p)|];
      intros H; try (injection H as <-; left; reflexivity).
    destruct (String_string _ _ H) as [s ->]. right. reflexivity.
Qed.

(** ** What a returned observation is made of *)

Lemma mapToPrimitives_parts (Date_parse : string -> number) (now : Z)
  (raw out : value) :
  mapToPrimitives Date_parse now raw = Return out ->
  exists t loc cl te hu pr ra sn de ic ws wg wd,
    observedAt Date_parse now raw = Return (Some t) /\
    locationName raw = Return loc /\
    cloudiness raw = Return cl /\
    temperature raw = Return te /\
    humidity raw = Return hu /\
    pressure raw = Return pr /\
    rain3h raw = Return ra /\
    snow3h raw = Return sn /\
    weatherDesc raw = Return de /\
    weatherIcon raw = Return ic /\
    windSpeed raw = Return ws /\
    windGust raw = Return wg /\
    windDeg raw = Return wd /\
    out = VObj [ ("observed_at", VStr (iso_format t));
                 ("location", loc);
                 ("clouds", cl);
                 ("main", te);
                 ("precipitation", nullish (nullish ra sn) VNull);
                 ("weather", de);
                 ("wind", ws);
                 ("raw_payload", rawPayload ic hu pr wg wd ra sn) ].
Proof.
  unfold mapToPrimitives. intros H.
  destruct (observedAt Date_parse now raw) as [d|] eqn:E0; [|discriminate].
  destruct (locationName raw) as [loc|] eqn:E1; [|discriminate].
  destruct (cloudiness raw) as [cl|] eqn:E2; [|discriminate].
  destruct (temperature raw) as [te|] eqn:E3; [|discriminate].
  destruct (humidity raw) as [hu|] eqn:E4; [|discriminate].
  destruct (pressure raw) as [pr|] eqn:E5; [|discriminate].
  destruct (rain3h raw) as [ra|] eqn:E6; [|discriminate].
  destruct (snow3h raw) as [sn|] eqn:E7; [|discriminate].
  destruct (weatherDesc raw) as [de|] eqn:E8; [|discriminate].
  destruct (weatherIcon raw) as [ic|] eqn:E9; [|discriminate].
  destruct (windSpeed raw) as [ws|] eqn:E10; [|discriminate].
  destruct (windGust raw) as [wg|] eqn:E11; [|discriminate].
  destruct (windDeg raw) as [wd|] eqn:E12; [|discriminate].
  simpl in H. destruct d as [t|]; simpl in H; [|discriminate].
  injection H as <-.
  exists t, loc, cl, te, hu, pr, ra, sn, de, ic, ws, wg, wd.
  repeat split; reflexivity.
Qed.

Example Date_parse_iso_leap_day :
  TimeClip (Date_parse_iso "2024-02-29T12:30:00.000Z") = Some 1709209800000.
Proof. vm_compute. reflexivity. Qed.

Example Date_parse_iso_back :
  iso_format 1709209800000 = "2024-02-29T12:30:00.000Z".
Proof. vm_compute. reflexivity. Qed.

Example Date_parse_iso_other : Date_parse_iso "yesterday" = NaN.
Proof. vm_compute. reflexivity. Qed.

(** ** C1 and C7: ["N/A"] in a numeric field *)

(** Where the program tests for it, ["N/A"] is read as an absent value:
    [rain3h] and [snow3h] are [null]. *)
Lemma guarded_numeric_field_NA (v : value) (x y : string) :
  member v x y = Some (VStr "N/A") ->
  guarded_numeric_field v x y = Return VNull.
Proof.
  intros H. destruct (nullish_value v) eqn:Hv.
  - unfold member in H. rewrite (Get_throws v x Hv) in H. discriminate.
  - rewrite (guarded_numeric_field_member v x y Hv), H. reflexivity.
Qed.

(** The other seven fields convert it with [Number], which answers [NaN]. *)
Lemma numeric_field_NA (v : value) (x y : string) :
  member v x y = Some (VStr "N/A") ->
  numeric_field v x y = Return (VNum NaN).
Proof.
  intros H. destruct (nullish_value v) eqn:Hv.
  - unfold member in H. rewrite (Get_throws v x Hv) in H. discriminate.
  - rewrite (numeric_field_member v x y Hv), H. reflexivity.
Qed.

(** C1.  The claim: ["N/A"] in any of the nine numeric source fields gives
    [null] in the output, never [NaN].  On the document that carries ["N/A"]
    in all nine, the program gives [null] for the two precipitation fields
    only; cloudiness, temperature, wind speed, humidity, pressure, wind gust
    and wind direction come out as [NaN]. *)
Theorem not_available_is_NaN_outside_precipitation
  (Date_parse : string -> number) (now : Z) :
  mapToPrimitives Date_parse now doc_not_available =
  Return (VObj [ ("observed_at", VStr (iso_format now));
                 ("location", VStr "Unknown");
                 ("clouds", VNum NaN);
                 ("main", VNum NaN);
                 ("precipitation", VNull);
                 ("weather", VNull);
                 ("wind", VNum NaN);
                 ("raw_payload",
                  VObj [ ("icon", VNull);
                         ("humidity", VNum NaN);
                         ("pressure", VNum NaN);
                         ("wind_gust", VNum NaN);
                         ("wind_deg", VNum NaN);
                         ("rain_3h", VNull);
                         ("snow_3h", VNull) ]) ]).
Proof. cbv -[iso_format]. reflexivity. Qed.

(** C7.  The end-to-end scenario: the document normalizes to main 21.5,
    weather "Clear", location "Unknown", clouds, precipitation and wind
    [null], as the claim says, but [raw_payload.humidity] is [NaN] where the
    claim says [null]. *)
Theorem scenario_humidity_is_NaN (Date_parse : string -> number) (now : Z) :
  mapToPrimitives Date_parse now doc_scenario =
  Return (VObj [ ("observed_at", VStr (iso_format now));
                 ("location", VStr "Unknown");
                 ("clouds", VNull);
                 ("main", num "21.5");
                 ("precipitation", VNull);
                 ("weather", VStr "Clear");
                 ("wind", VNull);
                 ("raw_payload",
                  VObj [ ("icon", VNull);
                         ("humidity", VNum NaN);
                         ("pressure", VNull);
                         ("wind_gust", VNull);
                         ("wind_deg", VNull);
                         ("rain_3h", VNull);
                         ("snow_3h", VNull) ]) ]).
Proof. cbv -[iso_format]. reflexivity. Qed.

(** ** C8: precipitation is the first amount present *)

(** On the normalized amounts: in every observation the normalizer
    returns, [precipitation] is [rain3h], kept as [raw_payload.rain_3h],
    when that is not [null], else [snow3h], kept as [raw_payload.snow_3h],
    when that is not [null], else [null]. *)
Theorem precipitation_first_present (Date_parse : string -> number) (now : Z)
  (raw out : value) :
  mapToPrimitives Date_parse now raw = Return out ->
  exists rain snow,
    rain3h raw = Return rain /\ snow3h raw = Return snow /\
    Get2 out "raw_payload" "rain_3h" = Return rain /\
    Get2 out "raw_payload" "snow_3h" = Return snow /\
    number_or_null rain = true /\ number_or_null snow = true /\
    Get out "precipitation" =
      Return (match rain with
              | VNull => match snow with VNull => VNull | _ => snow end
              | _ => rain
              end) /\
    (rain <> VNull -> snow <> VNull -> Get out "precipitation" = Return rain).
Proof.
  intros H.
  destruct (mapToPrimitives_parts _ _ _ _ H)
    as (t & loc & cl & te & hu & pr & ra & sn & de & ic & ws & wg & wd &
        _ & _ & _ & _ & _ & _ & Hra & Hsn & _ & _ & _ & _ & _ & ->).
  assert (Tra : number_or_null ra = true)
    by exact (guarded_numeric_field_type raw _ _ ra Hra).
  assert (Tsn : number_or_null sn = true)
    by exact (guarded_numeric_field_type raw _ _ sn Hsn).
  exists ra, sn.
  repeat split; try assumption; try reflexivity.
  - destruct ra; try discriminate; destruct sn; try discriminate; reflexivity.
  - intros Nra _. destruct ra; try discriminate; [congruence | reflexivity].
Qed.

Lemma precipitation_first_present_witness :
  exists out,
    mapToPrimitives Date_parse_iso 0 doc_rain_and_snow = Return out /\
    Get out "precipitation" = Return (num "1.5") /\
    Get2 out "raw_payload" "snow_3h" = Return (num "2").
Proof.
  eexists. split; [vm_compute; reflexivity|].
  destruct (precipitation_first_present Date_parse_iso 0 doc_rain_and_snow _
              ltac:(vm_compute; reflexivity))
    as (rain & snow & Hr & Hs & _ & Hps & _ & _ & _ & Hp).
  assert (Er : rain = num "1.5")
    by (vm_compute in Hr; injection Hr as <-; vm_compute; reflexivity).
  assert (Es : snow = num "2")
    by (vm_compute in Hs; injection Hs as <-; vm_compute; reflexivity).
  subst rain snow. split; [|exact Hps].
  apply Hp; vm_compute; discriminate.
Defined.

(** C8, as the claim has it over the members of the document, fails: a
    rain amount that is JSON [null] is present, [Number] makes 0 of it, and
    [precipitation] is 0 although the snow amount is 4. *)
Lemma precipitation_null_rain_hides_snow :
  member doc_null_rain "precipitation" "rain_3h_mm" = Some VNull /\
  member doc_null_rain "precipitation" "snow_3h_mm" = Some (num "4") /\
  mapToPrimitives Date_parse_iso 0 doc_null_rain =
  Return (VObj [ ("observed_at", VStr "1970-01-01T00:00:00.000Z");
                 ("location", VStr "Unknown");
                 ("clouds", VNull);
                 ("main", VNull);
                 ("precipitation", VNum pos_zero);
                 ("weather", VNull);
                 ("wind", VNull);
                 ("raw_payload",
                  VObj [ ("icon", VNull);
                         ("humidity", VNull);
                         ("pressure", VNull);
                         ("wind_gust", VNull);
                         ("wind_deg", VNull);
                         ("rain_3h", VNum pos_zero);
                         ("snow_3h", num "4") ]) ]).
Proof. repeat split; vm_compute; reflexivity. Qed.

(** C8, as the program has it, on the members of the document.  In every
    observation the normalizer returns, [precipitation] is [Number] of
    [rain_3h_mm] when that member is present and not ["N/A"] (a JSON [null]
    is present and gives 0); otherwise it is [Number] of [snow_3h_mm] when
    that member is present and not ["N/A"]; otherwise it is [null].  So it
    is the rain amount whenever both members are numbers, never a sum. *)
Theorem precipitation_by_source_members (Date_parse : string -> number)
  (now : Z) (raw out : value) :
  mapToPrimitives Date_parse now raw = Return out ->
  (forall p,
     member raw "precipitation" "rain_3h_mm" = Some p ->
     is_undefined p = false ->
     strict_equal_string p "N/A" = false ->
     exists n, ToNumber p = Return n /\
               Get out "precipitation" = Return (VNum n)) /\
  (missing raw "precipitation" "rain_3h_mm" \/
   member raw "precipitation" "rain_3h_mm" = Some (VStr "N/A") ->
   (forall q,
      member raw "precipitation" "snow_3h_mm" = Some q ->
      is_undefined q = false ->
      strict_equal_string q "N/A" = false ->
      exists n, ToNumber q = Return n /\
                Get out "precipitation" = Return (VNum n)) /\
   (missing raw "precipitation" "snow_3h_mm" \/
    member raw "precipitation" "snow_3h_mm" = Some (VStr "N/A") ->
    Get out "precipitation" = Return VNull)) /\
  (forall r s,
     member raw "precipitation" "rain_3h_mm" = Some (VNum r) ->
     member raw "precipitation" "snow_3h_mm" = Some (VNum s) ->
     Get out "precipitation" = Return (VNum r)).
Proof.
  intros H.
  destruct (mapToPrimitives_parts _ _ _ _ H)
    as (t & loc & cl & te & hu & pr & ra & sn & de & ic & ws & wg & wd &
        Ht & _ & _ & _ & _ & _ & Hra & Hsn & _ & _ & _ & _ & _ & ->).
  clear H.
  assert (Hv : nullish_value raw = false).
  { destruct (nullish_value raw) eqn:N; [|reflexivity].
    unfold observedAt, cond in Ht. rewrite (Get_throws raw _ N) in Ht.
    discriminate. }
  change (guarded_numeric_field raw "precipitation" "rain_3h_mm" = Return ra)
    in Hra.
  change (guarded_numeric_field raw "precipitation" "snow_3h_mm" = Return sn)
    in Hsn.
  rewrite (guarded_numeric_field_member raw _ _ Hv) in Hra.
  rewrite (guarded_numeric_field_member raw _ _ Hv) in Hsn.
  assert (K : forall p v, Number p = Return v ->
                          exists n, ToNumber p = Return n /\ v = VNum n).
  { intros p v. unfold Number, bind. destruct (ToNumber p) as [n|];
      [|discriminate]. intros E. injection E as <-. eauto. }
  split; [|split].
  - intros p M Hu Hna. rewrite M, Hu, Hna in Hra.
    destruct (K _ _ Hra) as (n & Hn & ->). exists n. split; [exact Hn|].
    reflexivity.
  - intros R.
    assert (Era : ra = VNull).
    { destruct R as [[M | M] | M]; rewrite M in Hra; cbn in Hra;
        injection Hra as <-; reflexivity. }
    subst ra. split.
    + intros q M Hu Hna. rewrite M, Hu, Hna in Hsn.
      destruct (K _ _ Hsn) as (n & Hn & ->). exists n. split; [exact Hn|].
      reflexivity.
    + intros S.
      assert (Esn : sn = VNull).
      { destruct S as [[M | M] | M]; rewrite M in Hsn; cbn in Hsn;
          injection Hsn as <-; reflexivity. }
      subst sn. reflexivity.
  - intros r s Mr Ms. rewrite Mr in Hra. cbn in Hra. injection Hra as <-.
    reflexivity.
Qed.

Lemma precipitation_by_source_members_witness :
  exists out,
    mapToPrimitives Date_parse_iso 0 doc_rain_and_snow = Return out /\
    Get out "precipitation" = Return (num "1.5").
Proof.
  eexists. split; [vm_compute; reflexivity|].
  destruct (precipitation_by_source_members Date_parse_iso 0
              doc_rain_and_snow _ ltac:(vm_compute; reflexivity))
    as (_ & _ & B).
  apply (B (StringToNumber "1.5") (StringToNumber "2"));
    vm_compute; reflexivity.
Defined.

(** ** C9: only primitives leave the normalizer *)

(** C9.  An observation the normalizer returns has exactly the eight fields
    [observed_at], [location], [clouds], [main], [precipitation], [weather],
    [wind] and [raw_payload]; the first seven are strings, numbers or [null],
    and [raw_payload] has exactly the seven keys [icon], [humidity],
    [pressure], [wind_gust], [wind_deg], [rain_3h] and [snow_3h], each a
    string, a number or [null].  No object or array of the input and no other
    field of it appears. *)
Theorem normalized_fields_primitive (Date_parse : string -> number) (now : Z)
  (raw out : value) :
  mapToPrimitives Date_parse now raw = Return out ->
  exists observed_at location clouds main precipitation weather wind
         icon humidity pressure wind_gust wind_deg rain_3h snow_3h,
    out = VObj [ ("observed_at", observed_at);
                 ("location", location);
                 ("clouds", clouds);
                 ("main", main);
                 ("precipitation", precipitation);
                 ("weather", weather);
                 ("wind", wind);
                 ("raw_payload",
                  VObj [ ("icon", icon);
                         ("humidity", humidity);
                         ("pressure", pressure);
                         ("wind_gust", wind_gust);
                         ("wind_deg", wind_deg);
                         ("rain_3h", rain_3h);
                         ("snow_3h", snow_3h) ]) ] /\
    is_string observed_at = true /\
    is_string location = true /\
    string_or_null weather = true /\
    string_or_null icon = true /\
    Forall (fun v => number_or_null v = true)
      [clouds; main; precipitation; wind; humidity; pressure; wind_gust;
       wind_deg; rain_3h; snow_3h] /\
    Forall (fun v => primitive v = true)
      [observed_at; location; clouds; main; precipitation; weather; wind;
       icon; humidity; pressure; wind_gust; wind_deg; rain_3h; snow_3h].
Proof.
  intros H.
  destruct (mapToPrimitives_parts _ _ _ _ H)
    as (t & loc & cl & te & hu & pr & ra & sn & de & ic & ws & wg & wd &
        _ & Hloc & Hcl & Hte & Hhu & Hpr & Hra & Hsn & Hde & Hic & Hws &
        Hwg & Hwd & ->).
  pose proof (numeric_field_type raw _ _ cl Hcl) as Tcl.
  pose proof (numeric_field_type raw _ _ te Hte) as Tte.
  pose proof (numeric_field_type raw _ _ hu Hhu) as Thu.
  pose proof (numeric_field_type raw _ _ pr Hpr) as Tpr.
  pose proof (guarded_numeric_field_type raw _ _ ra Hra) as Tra.
  pose proof (guarded_numeric_field_type raw _ _ sn Hsn) as Tsn.
  pose proof (numeric_field_type raw _ _ ws Hws) as Tws.
  pose proof (numeric_field_type raw _ _ wg Hwg) as Twg.
  pose proof (numeric_field_type raw _ _ wd Hwd) as Twd.
  assert (Tloc : is_string loc = true).
  { destruct (string_field_type raw _ _ _ loc Hloc) as [-> | T];
      [reflexivity | exact T]. }
  assert (Tde : string_or_null de = true).
  { destruct (string_field_type raw _ _ _ de Hde) as [-> | T];
      [reflexivity | destruct de; try discriminate; reflexivity]. }
  assert (Tic : string_or_null ic = true).
  { destruct (string_field_type raw _ _ _ ic Hic) as [-> | T];
      [reflexivity | destruct ic; try discriminate; reflexivity]. }
  do 14 eexists. split; [reflexivity|].
  assert (P : forall v, number_or_null v = true -> primitive v = true)
    by (intros v; destruct v; simpl; congruence).
  assert (Q : forall v, string_or_null v = true -> primitive v = true)
    by (intros v; destruct v; simpl; congruence).
  assert (N : forall v, number_or_null v = true ->
                        number_or_null (nullish v VNull) = true)
    by (intros v; destruct v; simpl; congruence).
  assert (S : forall v, string_or_null v = true ->
                        string_or_null (nullish v VNull) = true)
    by (intros v; destruct v; simpl; congruence).
  assert (Tp : number_or_null (nullish (nullish ra sn) VNull) = true)
    by (destruct ra; try discriminate; destruct sn; try discriminate;
        reflexivity).
  repeat split; auto 6.
  - repeat constructor; auto.
  - repeat constructor; auto.
    destruct loc; try discriminate; reflexivity.
Qed.

Lemma normalized_fields_primitive_witness :
  exists out observed_at location,
    mapToPrimitives Date_parse_iso 0 doc_rain_and_snow = Return out /\
    Get out "observed_at" = Return observed_at /\
    Get out "location" = Return location /\
    is_string observed_at = true /\ is_string location = true.
Proof.
  destruct (normalized_fields_primitive Date_parse_iso 0 doc_rain_and_snow _
              ltac:(vm_compute; reflexivity))
    as (oa & lo & cl & ma & pr & we & wi & ic & hu & ps & wg & wd & ra & sn &
        Hout & Hoa & Hlo & _).
  eexists. exists oa, lo.
  split; [vm_compute; reflexivity|].
  rewrite Hout. repeat split; try reflexivity; assumption.
Defined.

(** ** C10: strings are tested for truthiness, numbers for presence *)

Lemma member_not_nullish (v : value) (x y : string) (p : value) :
  member v x y = Some p -> nullish_value v = false.
Proof.
  unfold member. destruct v; simpl; congruence.
Qed.

Lemma string_field_empty (v : value) (x y : string) (default : value) :
  member v x y = Some (VStr "") -> string_field v x y default = Return default.
Proof.
  intros H.
  rewrite (string_field_member v x y default (member_not_nullish _ _ _ _ H)), H.
  reflexivity.
Qed.

Lemma numeric_field_number (v : value) (x y : string) (n : number) :
  member v x y = Some (VNum n) -> numeric_field v x y = Return (VNum n).
Proof.
  intros H.
  rewrite (numeric_field_member v x y (member_not_nullish _ _ _ _ H)), H.
  reflexivity.
Qed.

Lemma guarded_numeric_field_number (v : value) (x y : string) (n : number) :
  member v x y = Some (VNum n) ->
  guarded_numeric_field v x y = Return (VNum n).
Proof.
  intros H.
  rewrite (guarded_numeric_field_member v x y (member_not_nullish _ _ _ _ H)), H.
  reflexivity.
Qed.

Lemma observedAt_empty (Date_parse : string -> number) (now : Z) (raw : value) :
  Get raw "datetime_utc" = Return (VStr "") ->
  observedAt Date_parse now raw = Return (Some now).
Proof.
  intros H. unfold observedAt, cond. rewrite H. reflexivity.
Qed.

(** C10.  In an observation the normalizer returns: a weather description
    or icon that is present and the empty string gives [null], a location
    name that is present and the empty string gives ["Unknown"], and a
    [datetime_utc] that is the empty string gives the ingestion time; a
    numeric field that is present with a number, zero included, keeps that
    number. *)
Theorem strings_by_truthiness_numbers_by_presence
  (Date_parse : string -> number) (now : Z) (raw out : value) :
  mapToPrimitives Date_parse now raw = Return out ->
  (member raw "weather" "description" = Some (VStr "") ->
   Get out "weather" = Return VNull) /\
  (member raw "weather" "icon" = Some (VStr "") ->
   Get2 out "raw_payload" "icon" = Return VNull) /\
  (member raw "location" "name" = Some (VStr "") ->
   Get out "location" = Return (VStr "Unknown")) /\
  (Get raw "datetime_utc" = Return (VStr "") ->
   Get out "observed_at" = Return (VStr (iso_format now))) /\
  (forall n, member raw "clouds" "cloudiness_percent" = Some (VNum n) ->
   Get out "clouds" = Return (VNum n)) /\
  (forall n, member raw "main" "temperature_c" = Some (VNum n) ->
   Get out "main" = Return (VNum n)) /\
  (forall n, member raw "wind" "speed_ms" = Some (VNum n) ->
   Get out "wind" = Return (VNum n)) /\
  (forall n, member raw "main" "humidity_percent" = Some (VNum n) ->
   Get2 out "raw_payload" "humidity" = Return (VNum n)) /\
  (forall n, member raw "main" "pressure_hpa" = Some (VNum n) ->
   Get2 out "raw_payload" "pressure" = Return (VNum n)) /\
  (forall n, member raw "wind" "gust_ms" = Some (VNum n) ->
   Get2 out "raw_payload" "wind_gust" = Return (VNum n)) /\
  (forall n, member raw "wind" "direction_degrees" = Some (VNum n) ->
   Get2 out "raw_payload" "wind_deg" = Return (VNum n)) /\
  (forall n, member raw "precipitation" "rain_3h_mm" = Some (VNum n) ->
   Get2 out "raw_payload" "rain_3h" = Return (VNum n)) /\
  (forall n, member raw "precipitation" "snow_3h_mm" = Some (VNum n) ->
   Get2 out "raw_payload" "snow_3h" = Return (VNum n)).
Proof.
  intros H.
  destruct (mapToPrimitives_parts _ _ _ _ H)
    as (t & loc & cl & te & hu & pr & ra & sn & de & ic & ws & wg & wd &
        Ht & Hloc & Hcl & Hte & Hhu & Hpr & Hra & Hsn & Hde & Hic & Hws &
        Hwg & Hwd & ->).
  repeat match goal with |- _ /\ _ => split end.
  - intros M. change (weatherDesc raw)
      with (string_field raw "weather" "description" VNull) in Hde.
    rewrite (string_field_empty _ _ _ _ M) in Hde. injection Hde as <-.
    reflexivity.
  - intros M. change (weatherIcon raw)
      with (string_field raw "weather" "icon" VNull) in Hic.
    rewrite (string_field_empty _ _ _ _ M) in Hic. injection Hic as <-.
    reflexivity.
  - intros M. change (locationName raw)
      with (string_field raw "location" "name" (VStr "Unknown")) in Hloc.
    rewrite (string_field_empty _ _ _ _ M) in Hloc. injection Hloc as <-.
    reflexivity.
  - intros M. rewrite (observedAt_empty _ _ _ M) in Ht. injection Ht as <-.
    reflexivity.
  - intros n M. change (cloudiness raw)
      with (numeric_field raw "clouds" "cloudiness_percent") in Hcl.
    rewrite (numeric_field_number _ _ _ _ M) in Hcl. injection Hcl as <-.
    reflexivity.
  - intros n M. change (temperature raw)
      with (numeric_field raw "main" "temperature_c") in Hte.
    rewrite (numeric_field_number _ _ _ _ M) in Hte. injection Hte as <-.
    reflexivity.
  - intros n M. change (windSpeed raw)
      with (numeric_field raw "wind" "speed_ms") in Hws.
    rewrite (numeric_field_number _ _ _ _ M) in Hws. injection Hws as <-.
    reflexivity.
  - intros n M. change (humidity raw)
      with (numeric_field raw "main" "humidity_percent") in Hhu.
    rewrite (numeric_field_number _ _ _ _ M) in Hhu. injection Hhu as <-.
    reflexivity.
  - intros n M. change (pressure raw)
      with (numeric_field raw "main" "pressure_hpa") in Hpr.
    rewrite (numeric_field_number _ _ _ _ M) in Hpr. injection Hpr as <-.
    reflexivity.
  - intros n M. change (windGust raw)
      with (numeric_field raw "wind" "gust_ms") in Hwg.
    rewrite (numeric_field_number _ _ _ _ M) in Hwg. injection Hwg as <-.
    reflexivity.
  - intros n M. change (windDeg raw)
      with (numeric_field raw "wind" "direction_degrees") in Hwd.
    rewrite (numeric_field_number _ _ _ _ M) in Hwd. injection Hwd as <-.
    reflexivity.
  - intros n M. change (rain3h raw)
      with (guarded_numeric_field raw "precipitation" "rain_3h_mm") in Hra.
    rewrite (guarded_numeric_field_number _ _ _ _ M) in Hra.
    injection Hra as <-. reflexivity.
  - intros n M. change (snow3h raw)
      with (guarded_numeric_field raw "precipitation" "snow_3h_mm") in Hsn.
    rewrite (guarded_numeric_field_number _ _ _ _ M) in Hsn.
    injection Hsn as <-. reflexivity.
Qed.

Lemma strings_by_truthiness_numbers_by_presence_witness :
  exists out,
    mapToPrimitives Date_parse_iso 1700000000123 doc_empty_and_zero
      = Return out /\
    Get out "weather" = Return VNull /\
    Get2 out "raw_payload" "icon" = Return VNull /\
    Get out "location" = Return (VStr "Unknown") /\
    Get out "observed_at" = Return (VStr (iso_format 1700000000123)) /\
    Get out "clouds" = Return (VNum pos_zero) /\
    Get2 out "raw_payload" "rain_3h" = Return (VNum pos_zero).
Proof.
  eexists. split; [vm_compute; reflexivity|].
  destruct (strings_by_truthiness_numbers_by_presence Date_parse_iso
              1700000000123 doc_empty_and_zero _ ltac:(vm_compute; reflexivity))
    as (H1 & H2 & H3 & H4 & H5 & _ & _ & _ & _ & _ & _ & H12 & _).
  repeat match goal with |- _ /\ _ => split end.
  - apply H1. vm_compute. reflexivity.
  - apply H2. vm_compute. reflexivity.
  - apply H3. vm_compute. reflexivity.
  - apply H4. vm_compute. reflexivity.
  - apply H5. vm_compute. reflexivity.
  - apply H12. vm_compute. reflexivity.
Defined.

(** ** C2: when the normalizer returns *)










(** The three conditions are also necessary: the normalizer returns on no
    other document. *)
Lemma Number_convertible (p r : value) :
  Number p = Return r -> convertible p = true.
Proof.
  unfold Number, ToNumber, ToPrimitive, convertible, bind.
  destruct p; try reflexivity;
    match goal with
    | |- context [match ?c with Return _ => _ | Throw _ => _ end] =>
      destruct c; [reflexivity | discriminate]
    end.
Qed.

Lemma String_convertible (p r : value) :
  String_ p = Return r -> convertible p = true.
Proof.
  unfold String_, convertible, bind. destruct (ToString p);
    [reflexivity | discriminate].
Qed.

Lemma numeric_field_only_if (v : value) (x y : string) (r : value) :
  nullish_value v = false -> numeric_field v x y = Return r ->
  member_convertible v (x, y) = true.
Proof.
  intros Hv. rewrite (numeric_field_member v x y Hv).
  unfold member_convertible. simpl.
  destruct (member v x y) as [p|]; [|reflexivity].
  destruct p; simpl; intros H; try reflexivity;
    exact (Number_convertible _ _ H).
Qed.

Lemma guarded_numeric_field_only_if (v : value) (x y : string) (r : value) :
  nullish_value v = false -> guarded_numeric_field v x y = Return r ->
  member_convertible v (x, y) = true.
Proof.
  intros Hv. rewrite (guarded_numeric_field_member v x y Hv).
  unfold member_convertible. simpl.
  destruct (member v x y) as [p|]; [|reflexivity].
  destruct p; simpl; intros H; try reflexivity;
    exact (Number_convertible _ _ H).
Qed.

Lemma string_field_only_if (v : value) (x y : string) (default r : value) :
  nullish_value v = false -> string_field v x y default = Return r ->
  member_convertible v (x, y) = true.
Proof.
  intros Hv. rewrite (string_field_member v x y default Hv).
  unfold member_convertible. simpl.
  destruct (member v x y) as [p|]; [|reflexivity].
  destruct p; simpl; intros H; try reflexivity;
    exact (String_convertible _ _ H).
Qed.

Lemma normalize_returns_only_if (Date_parse : string -> number) (now : Z)
  (raw out : value) :
  mapToPrimitives Date_parse now raw = Return out ->
  nullish_value raw = false /\
  valid_date Date_parse raw = true /\
  members_convertible raw = true.
Proof.
  intros H.
  destruct (mapToPrimitives_parts _ _ _ _ H)
    as (t & loc & cl & te & hu & pr & ra & sn & de & ic & ws & wg & wd &
        Ht & Hloc & Hcl & Hte & Hhu & Hpr & Hra & Hsn & Hde & Hic & Hws &
        Hwg & Hwd & _).
  assert (Hv : nullish_value raw = false).
  { destruct (nullish_value raw) eqn:E; [|reflexivity].
    unfold observedAt, cond in Ht. rewrite (Get_throws raw _ E) in Ht.
    discriminate. }
  split; [exact Hv|]. split.
  - unfold valid_date. unfold observedAt, cond, bind in Ht.
    destruct (Get raw "datetime_utc") as [d|]; [|discriminate].
    destruct (ToBoolean d); [|reflexivity].
    rewrite Ht. reflexivity.
  - unfold members_convertible, converted_members. cbn [forallb].
    rewrite (string_field_only_if raw _ _ _ _ Hv Hloc).
    rewrite (numeric_field_only_if raw _ _ _ Hv Hcl).
    rewrite (numeric_field_only_if raw _ _ _ Hv Hte).
    rewrite (numeric_field_only_if raw _ _ _ Hv Hhu).
    rewrite (numeric_field_only_if raw _ _ _ Hv Hpr).
    rewrite (guarded_numeric_field_only_if raw _ _ _ Hv Hra).
    rewrite (guarded_numeric_field_only_if raw _ _ _ Hv Hsn).
    rewrite (string_field_only_if raw _ _ _ _ Hv Hde).
    rewrite (string_field_only_if raw _ _ _ _ Hv Hic).
    rewrite (numeric_field_only_if raw _ _ _ Hv Hws).
    rewrite (numeric_field_only_if raw _ _ _ Hv Hwg).
    rewrite (numeric_field_only_if raw _ _ _ Hv Hwd).
    reflexivity.
Qed.


(** Two more documents on which the normalizer throws: a [datetime_utc] that
    is no date, and a location name that is an object with a [toString]
    member. *)
Lemma normalize_throws_on_invalid_date :
  mapToPrimitives Date_parse_iso 0 (VObj [ ("datetime_utc", VStr "yesterday") ])
  = Throw RangeError.
Proof. vm_compute. reflexivity. Qed.

Lemma normalize_throws_on_unconvertible_name :
  mapToPrimitives Date_parse_iso 0
    (VObj [ ("location", VObj [ ("name", VObj [ ("toString", VNull) ]) ]) ])
  = Throw TypeError.
Proof. vm_compute. reflexivity. Qed.

(** ** C3: the pipeline returns a result, whatever happens *)

Lemma record_of_observation (Date_parse : string -> number) (now : Z)
  (id : string) (raw out : value) :
  mapToPrimitives Date_parse now raw = Return out ->
  exists fields, record id out = Return (VObj (("id", VStr id) :: fields)).
Proof.
  intros H.
  destruct (mapToPrimitives_parts _ _ _ _ H)
    as (t & loc & cl & te & hu & pr & ra & sn & de & ic & ws & wg & wd &
        _ & _ & _ & _ & _ & _ & _ & _ & _ & _ & _ & _ & _ & ->).
  eexists. reflexivity.
Qed.

Lemma ok_false (res : Response) :
  status res < 200 \/ 299 < status res <-> ok res = false.
Proof.
  unfold ok. rewrite andb_false_iff, !Z.leb_gt. lia.
Qed.

Section PipelineCases.

Variable Date_parse : string -> number.
Variable id : string.
Variable now : Z.
Variable how : store_behaviour.
Variable w : world.

Lemma push_transport_fails (e : exn) :
  pushObservation Date_parse id now (Throw e) how w = caught e w.
Proof. reflexivity. Qed.

Lemma push_status_not_ok (res : Response) :
  ok res = false ->
  pushObservation Date_parse id now (Return res) how w =
  caught (Error ("fetch status " ++ Number_toString (of_Z (status res)))) w.
Proof.
  intros H.
  unfold pushObservation, try_catchM, pushObservation_try, bindM, fetch, lift.
  rewrite H. reflexivity.
Qed.

Lemma push_body_not_json (res : Response) (e : exn) :
  ok res = true -> json res = Throw e ->
  pushObservation Date_parse id now (Return res) how w = caught e w.
Proof.
  intros H J.
  unfold pushObservation, try_catchM, pushObservation_try, bindM, fetch, lift.
  rewrite H, J. reflexivity.
Qed.

Lemma push_normalizer_throws (res : Response) (raw : value) (e : exn) :
  ok res = true -> json res = Return raw ->
  mapToPrimitives Date_parse now raw = Throw e ->
  pushObservation Date_parse id now (Return res) how w = caught e w.
Proof.
  intros H J N.
  unfold pushObservation, try_catchM, pushObservation_try, bindM, fetch, lift.
  rewrite H, J. cbn [negb]. rewrite N. reflexivity.
Qed.

Lemma push_reaches_store (res : Response) (raw out : value) :
  ok res = true -> json res = Return raw ->
  mapToPrimitives Date_parse now raw = Return out ->
  exists fields,
    let row := VObj (("id", VStr id) :: fields) in
    record id out = Return row /\
    pushObservation Date_parse id now (Return res) how w =
    match how with
    | StoreApplies =>
      let t := upsert_row "id" (wire row) (store w "weather_observations") in
      (Return (Pushed (VArr (selected "id" (wire row) t))),
       {| store := fun n => if String.eqb n "weather_observations" then t
                            else store w n;
          console := console w |})
    | StoreRefuses error =>
      (Return (NotPushed (StoreError (VObj error))),
       logged "Supabase upsert error:" w)
    | StoreThrows e => caught e w
    end.
Proof.
  intros H J N.
  destruct (record_of_observation _ _ id _ _ N) as [fields Hrec].
  exists fields. split; [exact Hrec|].
  unfold pushObservation, try_catchM, pushObservation_try, bindM, fetch, lift.
  rewrite H, J. cbn [negb]. rewrite N, Hrec.
  destruct how; reflexivity.
Qed.

End PipelineCases.

Ltac settle_case :=
  repeat match goal with |- _ /\ _ => split end;
  intros;
  repeat match goal with
         | H : Return _ = Return _ |- _ => injection H as <-
         | H : _ \/ _ |- _ => apply ok_false in H
         end;
  cbv iota beta;
  first [ congruence | reflexivity | split; [congruence | reflexivity] ].

(** C3.  [pushObservation] never throws: for every outcome of the fetch,
    of the decoding of the body, of the normalizer and of the store it
    returns a result.  The result is a failure, and the store is left as it
    was, when the transport fails, when the status is outside 200-299, when
    the body is no JSON, when the normalizer throws, and when the store
    refuses the upsert or the call to it fails; it is a success when the
    store applies the upsert. *)
Theorem pushObservation_returns (Date_parse : string -> number)
  (id : string) (now : Z) (network : completion Response)
  (how : store_behaviour) (w : world) :
  exists r w',
    pushObservation Date_parse id now network how w = (Return r, w') /\
    (forall e, network = Throw e ->
       r = NotPushed (Caught e) /\ store w' = store w) /\
    (forall res, network = Return res ->
       status res < 200 \/ 299 < status res ->
       r = NotPushed
             (Caught (Error ("fetch status "
                             ++ Number_toString (of_Z (status res))))) /\
       store w' = store w) /\
    (forall res e, network = Return res -> ok res = true ->
       json res = Throw e ->
       r = NotPushed (Caught e) /\ store w' = store w) /\
    (forall res raw e, network = Return res -> ok res = true ->
       json res = Return raw ->
       mapToPrimitives Date_parse now raw = Throw e ->
       r = NotPushed (Caught e) /\ store w' = store w) /\
    (forall res raw out, network = Return res -> ok res = true ->
       json res = Return raw ->
       mapToPrimitives Date_parse now raw = Return out ->
       match how with
       | StoreApplies => result_ok r = true
       | StoreRefuses error =>
         r = NotPushed (StoreError (VObj error)) /\ store w' = store w
       | StoreThrows e =>
         r = NotPushed (Caught e) /\ store w' = store w
       end).
Proof.
  assert (R : forall r w' (P : result -> world -> Prop),
             pushObservation Date_parse id now network how w = (Return r, w') ->
             P r w' ->
             exists r w',
               pushObservation Date_parse id now network how w = (Return r, w')
               /\ P r w')
    by (intros r w' P E HP; exists r, w'; split; assumption).
  destruct network as [res|e0].
  - destruct (ok res) eqn:Hok.
    + destruct (json res) as [raw|e1] eqn:Hjson.
      * destruct (mapToPrimitives Date_parse now raw) as [out|e2] eqn:Hmap.
        -- destruct (push_reaches_store Date_parse id now how w res raw out
                       Hok Hjson Hmap) as (fields & _ & E).
           cbv zeta in E.
           destruct how as [|error|e3]; (eapply R; [exact E|]); settle_case.
        -- eapply R;
             [exact (push_normalizer_throws Date_parse id now how w res raw e2
                       Hok Hjson Hmap)|].
           settle_case.
      * eapply R;
          [exact (push_body_not_json Date_parse id now how w res e1 Hok Hjson)|].
        settle_case.
    + eapply R;
        [exact (push_status_not_ok Date_parse id now how w res Hok)|].
      settle_case.
  - eapply R; [exact (push_transport_fails Date_parse id now how w e0)|].
    settle_case.
Qed.

(** ** C4: one row for the target id *)

Lemma lookup_app (k : string) (ps qs : list (string * value)) (v : value) :
  lookup k ps = Some v -> lookup k (ps ++ qs) = Some v.
Proof.
  induction ps as [|[k' x] ps IH]; simpl; [discriminate|].
  destruct (String.eqb k k'); auto.
Qed.

Lemma has_id_wire_record (id : string) (fields : list (string * value)) :
  has_id id (wire (VObj (("id", VStr id) :: fields))) = true.
Proof.
  unfold has_id. simpl. apply String.eqb_refl.
Qed.

Lemma same_key_has_id (id : string) (row record : value) :
  has_id id record = true -> same_key "id" row record = has_id id row.
Proof.
  unfold has_id, same_key.
  destruct (Get record "id") as [[| | | |b| |]|]; try discriminate.
  intros E. apply String.eqb_eq in E. subst b.
  destruct (Get row "id") as [[| | | |a| |]|]; reflexivity.
Qed.

Lemma has_id_overwrite (id : string) (row record : value) :
  has_id id record = true -> has_id id (overwrite row record) = true.
Proof.
  intros H. destruct row; simpl; try exact H.
  destruct record; simpl; try exact H.
  unfold has_id in *. simpl in *.
  destruct (lookup "id" properties0) as [v|] eqn:L; [|discriminate].
  rewrite (lookup_app _ _ _ _ L). exact H.
Qed.

(** After an upsert by id the table holds one row of that id if it held at
    most one, and the rows of other ids are as many as before. *)
Lemma rows_with_id_upsert (id : string) (record : value) (t : table) :
  has_id id record = true ->
  rows_with_id id (upsert_row "id" record t) = Nat.max 1 (rows_with_id id t).
Proof.
  intros H. unfold rows_with_id.
  induction t as [|row t IH]; simpl.
  - rewrite H. reflexivity.
  - rewrite (same_key_has_id id row record H).
    destruct (has_id id row) eqn:Hrow; simpl.
    + rewrite (has_id_overwrite id row record H). simpl.
      destruct (List.length (filter (has_id id) t)); reflexivity.
    + rewrite Hrow. exact IH.
Qed.

Lemma run_once_store (Date_parse : string -> number) (id : string)
  (o : outside) (w : world) :
  store (snd (run_once Date_parse id o w)) = store w \/
  exists fields,
    store (snd (run_once Date_parse id o w)) =
    fun n =>
      if String.eqb n "weather_observations"
      then upsert_row "id" (wire (VObj (("id", VStr id) :: fields)))
             (observations w)
      else store w n.
Proof.
  unfold run_once. destruct o as [now net how]. simpl.
  destruct net as [res|e0].
  - destruct (ok res) eqn:Hok.
    + destruct (json res) as [raw|e1] eqn:Hjson.
      * destruct (mapToPrimitives Date_parse now raw) as [out|e2] eqn:Hmap.
        -- destruct (push_reaches_store Date_parse id now how w res raw out
                       Hok Hjson Hmap) as (fields & _ & E).
           cbv zeta in E. rewrite E.
           destruct how; [right; exists fields; reflexivity | left | left];
             reflexivity.
        -- left. rewrite (push_normalizer_throws _ _ _ _ _ _ _ _ Hok Hjson Hmap).
           reflexivity.
      * left. rewrite (push_body_not_json _ _ _ _ _ _ _ Hok Hjson).
        reflexivity.
    + left. rewrite (push_status_not_ok _ _ _ _ _ _ Hok). reflexivity.
  - left. reflexivity.
Qed.

Lemma run_once_rows (Date_parse : string -> number) (id : string)
  (o : outside) (w : world) :
  (rows_with_id id (observations w) <= 1)%nat ->
  (rows_with_id id (observations (snd (run_once Date_parse id o w))) <= 1)%nat.
Proof.
  intros H. unfold observations in *.
  destruct (run_once_store Date_parse id o w) as [E | [fields E]];
    rewrite E; [exact H|].
  cbn beta. rewrite String.eqb_refl.
  rewrite (rows_with_id_upsert id _ _ (has_id_wire_record id fields)).
  unfold observations. lia.
Qed.

(** C4.  A run leaves the store as it was, or it upserts, keyed on [id],
    one row into [weather_observations], and the id of that row is the
    configured target id; so any sequence of runs keeps at most one row of
    that id in a table that had at most one. *)
Theorem single_row_for_target_id (Date_parse : string -> number)
  (PUSH_TARGET_ID : string) :
  (forall o w,
     store (snd (run_once Date_parse PUSH_TARGET_ID o w)) = store w \/
     exists row,
       Get row "id" = Return (VStr PUSH_TARGET_ID) /\
       store (snd (run_once Date_parse PUSH_TARGET_ID o w)) =
       fun name =>
         if String.eqb name "weather_observations"
         then upsert_row "id" row (observations w)
         else store w name) /\
  (forall os w,
     (rows_with_id PUSH_TARGET_ID (observations w) <= 1)%nat ->
     (rows_with_id PUSH_TARGET_ID
        (observations (run_all Date_parse PUSH_TARGET_ID os w)) <= 1)%nat).
Proof.
  split.
  - intros o w.
    destruct (run_once_store Date_parse PUSH_TARGET_ID o w) as [E | [fields E]];
      [left; exact E | right].
    eexists. split; [|exact E]. reflexivity.
  - intros os. unfold run_all.
    induction os as [|o os IH]; intros w H; simpl; [exact H|].
    apply IH. apply run_once_rows. exact H.
Qed.

Lemma single_row_for_target_id_witness :
  (rows_with_id "e6f74576-8913-4def-9f54-fb08f926b7b2"
     (observations
        (run_all Date_parse_iso "e6f74576-8913-4def-9f54-fb08f926b7b2"
           three_runs empty_world)) <= 1)%nat.
Proof.
  apply (proj2 (single_row_for_target_id Date_parse_iso
                  "e6f74576-8913-4def-9f54-fb08f926b7b2")).
  vm_compute. lia.
Defined.

Example three_runs_one_row :
  rows_with_id "e6f74576-8913-4def-9f54-fb08f926b7b2"
    (observations
       (run_all Date_parse_iso "e6f74576-8913-4def-9f54-fb08f926b7b2"
          three_runs empty_world)) = 1%nat /\
  List.length
    (observations
       (run_all Date_parse_iso "e6f74576-8913-4def-9f54-fb08f926b7b2"
          three_runs empty_world)) = 1%nat.
Proof. vm_compute. split; reflexivity. Qed.

(** ** C5 and C6: the scheduler *)

Section SchedulerFacts.

Variable INTERVAL_SECONDS : number.

Lemma clearInterval_single (h : nat) (delay : number) :
  clearInterval h [(h, delay)] = [].
Proof. unfold clearInterval. simpl. rewrite Nat.eqb_refl. reflexivity. Qed.

Lemma startPusher_consistent (s : scheduler) :
  consistent s -> consistent (startPusher INTERVAL_SECONDS s).
Proof.
  unfold consistent, startPusher.
  destruct (intervalHandle s) as [h|] eqn:E; simpl.
  - rewrite E. auto.
  - intros ->. eexists. reflexivity.
Qed.

Lemma stop_consistent (s : scheduler) :
  consistent s ->
  consistent (snd (post_stop s)) /\ consistent (snd (get_stop s)).
Proof.
  unfold consistent, post_stop, get_stop.
  destruct (intervalHandle s) as [h|] eqn:E; simpl.
  - intros [delay ->]. rewrite clearInterval_single. auto.
  - rewrite E. auto.
Qed.

Lemma step_consistent (s : scheduler) (e : event) :
  consistent s -> consistent (step INTERVAL_SECONDS s e).
Proof.
  intros H. destruct e; simpl.
  - apply startPusher_consistent, H.
  - apply startPusher_consistent, H.
  - apply stop_consistent, H.
  - apply stop_consistent, H.
  - exact H.
Qed.

Lemma run_consistent (events : list event) :
  consistent (run INTERVAL_SECONDS events).
Proof.
  unfold run.
  assert (G : forall s, consistent s ->
                        consistent (fold_left (step INTERVAL_SECONDS) events s)).
  { induction events as [|e events IH]; intros s H; simpl; [exact H|].
    apply IH, step_consistent, H. }
  apply G, startPusher_consistent. reflexivity.
Qed.

Lemma startPusher_running (s : scheduler) (h : nat) :
  intervalHandle s = Some h -> startPusher INTERVAL_SECONDS s = s.
Proof. unfold startPusher. intros ->. reflexivity. Qed.

Lemma startPusher_sets_handle (s : scheduler) :
  exists h, intervalHandle (startPusher INTERVAL_SECONDS s) = Some h.
Proof.
  unfold startPusher. destruct (intervalHandle s) as [h|] eqn:E.
  - exists h. exact E.
  - eexists. reflexivity.
Qed.

End SchedulerFacts.

(** C5.  [startPusher] on a running scheduler changes nothing: no second
    timer, no push.  On an idle scheduler it sets one repeating timer, with
    the configured delay, and calls [pushObservation] once at once.  So
    starting twice is starting once, and in a running process two starts in
    a row leave exactly one timer, which calls [pushObservation] once per
    tick. *)
Theorem startPusher_idempotent (INTERVAL_SECONDS : number) :
  (forall s h,
     intervalHandle s = Some h -> startPusher INTERVAL_SECONDS s = s) /\
  (forall s,
     intervalHandle s = None ->
     startPusher INTERVAL_SECONDS s =
     {| intervalHandle := Some (next_timer s);
        timers :=
          (timers s
           ++ [(next_timer s, SFmul prec emax INTERVAL_SECONDS (of_Z 1000))])%list;
        next_timer := S (next_timer s);
        launched := (launched s ++ [InitialPush])%list |}) /\
  (forall s,
     startPusher INTERVAL_SECONDS (startPusher INTERVAL_SECONDS s) =
     startPusher INTERVAL_SECONDS s) /\
  (forall events,
     let s := startPusher INTERVAL_SECONDS
                (startPusher INTERVAL_SECONDS (run INTERVAL_SECONDS events)) in
     exists h delay,
       intervalHandle s = Some h /\
       timers s = [(h, delay)] /\
       launched (tick s) = (launched s ++ [TimerPush h])%list).
Proof.
  repeat match goal with |- _ /\ _ => split end.
  - intros s h H. exact (startPusher_running INTERVAL_SECONDS s h H).
  - intros s H. unfold startPusher. rewrite H. reflexivity.
  - intros s. destruct (startPusher_sets_handle INTERVAL_SECONDS s) as [h H].
    exact (startPusher_running INTERVAL_SECONDS _ h H).
  - intros events s.
    assert (C : consistent s)
      by (do 2 apply startPusher_consistent; apply run_consistent).
    destruct (startPusher_sets_handle INTERVAL_SECONDS
                (startPusher INTERVAL_SECONDS (run INTERVAL_SECONDS events)))
      as [h H].
    fold s in H. unfold consistent in C. rewrite H in C.
    destruct C as [delay T]. exists h, delay.
    repeat split; try assumption.
    unfold tick. simpl. rewrite T. reflexivity.
Qed.

(** C6.  On an idle scheduler both [/stop] handlers answer 400 with
    "not_running" and leave the state as it is.  On a running one they clear
    the timer, reset the handle and answer "stopped".  Whatever starts,
    stops and ticks come, in any order, the handle and the timers agree: at
    most one timer, and one exactly when the handle is set. *)
Theorem stop_reports_and_cycles_are_safe (INTERVAL_SECONDS : number) :
  (forall s,
     intervalHandle s = None ->
     post_stop s =
       ({| http_status := 400;
           content := Json (VObj [ ("status", VStr "not_running") ]) |}, s) /\
     get_stop s =
       ({| http_status := 400; content := Text "not_running" |}, s)) /\
  (forall events h,
     intervalHandle (run INTERVAL_SECONDS events) = Some h ->
     let s := run INTERVAL_SECONDS events in
     let stopped :=
       {| intervalHandle := None; timers := [];
          next_timer := next_timer s; launched := launched s |} in
     post_stop s =
       ({| http_status := 200;
           content := Json (VObj [ ("status", VStr "stopped") ]) |},
        stopped) /\
     get_stop s =
       ({| http_status := 200; content := Text "stopped" |}, stopped)) /\
  (forall events,
     consistent (run INTERVAL_SECONDS events) /\
     (List.length (timers (run INTERVAL_SECONDS events)) <= 1)%nat).
Proof.
  split; [|split].
  - intros s H. split.
    + unfold post_stop. rewrite H. reflexivity.
    + unfold get_stop. rewrite H. reflexivity.
  - intros events h H s stopped.
    pose proof (run_consistent INTERVAL_SECONDS events) as C.
    unfold consistent in C. rewrite H in C. destruct C as [delay T].
    subst s stopped. split.
    + unfold post_stop. rewrite H, T, clearInterval_single. reflexivity.
    + unfold get_stop. rewrite H, T, clearInterval_single. reflexivity.
  - intros events. split; [apply run_consistent|].
    pose proof (run_consistent INTERVAL_SECONDS events) as C.
    unfold consistent in C.
    destruct (intervalHandle (run INTERVAL_SECONDS events)).
    + destruct C as [delay ->]. simpl. lia.
    + rewrite C. simpl. lia.
Qed.

(** * Further properties of the program *)

(** ** The normalizer reads thirteen members and nothing else *)

Lemma normalizer_by_members (Date_parse : string -> number) (now : Z)
  (raw : value) :
  nullish_value raw = false ->
  mapToPrimitives Date_parse now raw =
  (observedAt <- observedAt Date_parse now raw ;;
   locationName <- string_field raw "location" "name" (VStr "Unknown") ;;
   cloudiness <- numeric_field raw "clouds" "cloudiness_percent" ;;
   temperature <- numeric_field raw "main" "temperature_c" ;;
   humidity <- numeric_field raw "main" "humidity_percent" ;;
   pressure <- numeric_field raw "main" "pressure_hpa" ;;
   rain3h <- guarded_numeric_field raw "precipitation" "rain_3h_mm" ;;
   snow3h <- guarded_numeric_field raw "precipitation" "snow_3h_mm" ;;
   weatherDesc <- string_field raw "weather" "description" VNull ;;
   weatherIcon <- string_field raw "weather" "icon" VNull ;;
   windSpeed <- numeric_field raw "wind" "speed_ms" ;;
   windGust <- numeric_field raw "wind" "gust_ms" ;;
   windDeg <- numeric_field raw "wind" "direction_degrees" ;;
   observed_at <- Date_toISOString observedAt ;;
   Return (VObj [ ("observed_at", VStr observed_at);
                  ("location", locationName);
                  ("clouds", cloudiness);
                  ("main", temperature);
                  ("precipitation", nullish (nullish rain3h snow3h) VNull);
                  ("weather", weatherDesc);
                  ("wind", windSpeed);
                  ("raw_payload",
                   rawPayload weatherIcon humidity pressure windGust windDeg
                     rain3h snow3h) ])).
Proof. reflexivity. Qed.

(** X1.  Two documents that agree on [datetime_utc] and on the twelve
    converted members normalize alike, to the same observation or to the
    same error: no other part of a document reaches the output. *)
Theorem normalizer_reads_only_listed_members (Date_parse : string -> number)
  (now : Z) (raw raw' : value) :
  nullish_value raw = false ->
  nullish_value raw' = false ->
  Get raw "datetime_utc" = Get raw' "datetime_utc" ->
  (forall x y, In (x, y) converted_members ->
               member raw x y = member raw' x y) ->
  mapToPrimitives Date_parse now raw = mapToPrimitives Date_parse now raw'.
Proof.
  intros Hv Hv' Hd Hm.
  rewrite (normalizer_by_members _ _ raw Hv),
          (normalizer_by_members _ _ raw' Hv').
  unfold observedAt. rewrite Hd.
  rewrite !(string_field_member raw _ _ _ Hv),
          !(numeric_field_member raw _ _ Hv),
          !(guarded_numeric_field_member raw _ _ Hv),
          !(string_field_member raw' _ _ _ Hv'),
          !(numeric_field_member raw' _ _ Hv'),
          !(guarded_numeric_field_member raw' _ _ Hv').
  rewrite (Hm "location" "name"), (Hm "clouds" "cloudiness_percent"),
          (Hm "main" "temperature_c"), (Hm "main" "humidity_percent"),
          (Hm "main" "pressure_hpa"), (Hm "precipitation" "rain_3h_mm"),
          (Hm "precipitation" "snow_3h_mm"), (Hm "weather" "description"),
          (Hm "weather" "icon"), (Hm "wind" "speed_ms"), (Hm "wind" "gust_ms"),
          (Hm "wind" "direction_degrees")
    by (simpl; tauto).
  reflexivity.
Qed.

Lemma normalizer_reads_only_listed_members_witness :
  mapToPrimitives Date_parse_iso 0 doc_scenario_and_more =
  mapToPrimitives Date_parse_iso 0 doc_scenario.
Proof.
  apply normalizer_reads_only_listed_members; try reflexivity.
  intros x y H. simpl in H.
  repeat (destruct H as [H | H]; [injection H as <- <-; reflexivity|]).
  contradiction.
Defined.

(** ** Documents without any of the members *)

Lemma falsy_parent (raw : value) (x : string) :
  match Get raw x with
  | Return o => negb (ToBoolean o)
  | Throw _ => false
  end = true ->
  nullish_value raw = false /\
  (exists o, Get raw x = Return o /\ ToBoolean o = false) /\
  forall y, member raw x y = None.
Proof.
  unfold member. destruct (Get raw x) as [o|] eqn:E; [|discriminate].
  intros H. apply negb_true_iff in H. rewrite H.
  repeat split; eauto.
  destruct (nullish_value raw) eqn:N; [|reflexivity].
  rewrite (Get_throws raw x N) in E. discriminate.
Qed.

(** X2.  A document in which [datetime_utc], [location], [clouds], [main],
    [precipitation], [weather] and [wind] are each absent or falsy (an empty
    object, an error body, a string, a number, an array) normalizes to the
    observation made of the defaults: the ingestion time, ["Unknown"], and
    [null] everywhere else. *)
Theorem normalizer_defaults_when_nothing_present
  (Date_parse : string -> number) (now : Z) (raw : value) :
  all_falsy raw = true ->
  mapToPrimitives Date_parse now raw = Return (default_observation now).
Proof.
  unfold all_falsy, top_level_members. cbn [forallb].
  rewrite !andb_true_iff.
  intros (Hd & Hl & Hc & Hm & Hp & Hw & Hi & _).
  destruct (falsy_parent raw _ Hd) as (Hv & (d & Ed & Fd) & _).
  destruct (falsy_parent raw _ Hl) as (_ & _ & Ml).
  destruct (falsy_parent raw _ Hc) as (_ & _ & Mc).
  destruct (falsy_parent raw _ Hm) as (_ & _ & Mm).
  destruct (falsy_parent raw _ Hp) as (_ & _ & Mp).
  destruct (falsy_parent raw _ Hw) as (_ & _ & Mw).
  destruct (falsy_parent raw _ Hi) as (_ & _ & Mi).
  rewrite (normalizer_by_members _ _ raw Hv).
  unfold observedAt, cond. rewrite Ed. cbn [bind]. rewrite Fd.
  rewrite !(string_field_member raw _ _ _ Hv),
          !(numeric_field_member raw _ _ Hv),
          !(guarded_numeric_field_member raw _ _ Hv).
  rewrite !Ml, !Mc, !Mm, !Mp, !Mw, !Mi. reflexivity.
Qed.

Lemma normalizer_defaults_when_nothing_present_witness :
  mapToPrimitives Date_parse_iso 1700000000123 doc_error_body =
  Return (default_observation 1700000000123) /\
  mapToPrimitives Date_parse_iso 1700000000123 (VArr [ num "1"; num "2" ]) =
  Return (default_observation 1700000000123).
Proof.
  split; apply normalizer_defaults_when_nothing_present; reflexivity.
Defined.

(** ** Where each member goes *)

(** The fields of a returned observation, each by its shape. *)
Lemma mapToPrimitives_shapes (Date_parse : string -> number) (now : Z)
  (raw out : value) :
  mapToPrimitives Date_parse now raw = Return out ->
  exists t loc cl te hu pr ra sn de ic ws wg wd,
    observedAt Date_parse now raw = Return (Some t) /\
    string_field raw "location" "name" (VStr "Unknown") = Return loc /\
    numeric_field raw "clouds" "cloudiness_percent" = Return cl /\
    numeric_field raw "main" "temperature_c" = Return te /\
    numeric_field raw "main" "humidity_percent" = Return hu /\
    numeric_field raw "main" "pressure_hpa" = Return pr /\
    guarded_numeric_field raw "precipitation" "rain_3h_mm" = Return ra /\
    guarded_numeric_field raw "precipitation" "snow_3h_mm" = Return sn /\
    string_field raw "weather" "description" VNull = Return de /\
    string_field raw "weather" "icon" VNull = Return ic /\
    numeric_field raw "wind" "speed_ms" = Return ws /\
    numeric_field raw "wind" "gust_ms" = Return wg /\
    numeric_field raw "wind" "direction_degrees" = Return wd /\
    out = VObj [ ("observed_at", VStr (iso_format t));
                 ("location", loc);
                 ("clouds", cl);
                 ("main", te);
                 ("precipitation", nullish (nullish ra sn) VNull);
                 ("weather", de);
                 ("wind", ws);
                 ("raw_payload", rawPayload ic hu pr wg wd ra sn) ].
Proof. exact (mapToPrimitives_parts Date_parse now raw out). Qed.

(** A numeric member that is present, and is not ["N/A"], is converted with
    [Number] and written to its place. *)
Lemma numeric_output_is_Number (Date_parse : string -> number) (now : Z)
  (raw out : value) (x y : string) (path : list string) (p : value) :
  mapToPrimitives Date_parse now raw = Return out ->
  In (x, y, path) numeric_outputs ->
  member raw x y = Some p ->
  is_undefined p = false ->
  strict_equal_string p "N/A" = false ->
  exists n, ToNumber p = Return n /\ output_at out path = Return (VNum n).
Proof.
  intros H Hin Hm Hu Hna.
  pose proof (member_not_nullish _ _ _ _ Hm) as Hv.
  destruct (mapToPrimitives_shapes _ _ _ _ H)
    as (t & loc & cl & te & hu & pr & ra & sn & de & ic & ws & wg & wd &
        _ & _ & Hcl & Hte & Hhu & Hpr & Hra & Hsn & _ & _ & Hws &
        Hwg & Hwd & ->).
  clear H.
  rewrite (numeric_field_member raw _ _ Hv) in Hcl.
  rewrite (numeric_field_member raw _ _ Hv) in Hte.
  rewrite (numeric_field_member raw _ _ Hv) in Hhu.
  rewrite (numeric_field_member raw _ _ Hv) in Hpr.
  rewrite (numeric_field_member raw _ _ Hv) in Hws.
  rewrite (numeric_field_member raw _ _ Hv) in Hwg.
  rewrite (numeric_field_member raw _ _ Hv) in Hwd.
  rewrite (guarded_numeric_field_member raw _ _ Hv) in Hra.
  rewrite (guarded_numeric_field_member raw _ _ Hv) in Hsn.
  assert (K : forall r, Number p = Return r ->
                        exists n, ToNumber p = Return n /\ r = VNum n).
  { intros r. unfold Number, bind. destruct (ToNumber p) as [n|];
      [|discriminate]. intros E. injection E as <-. eauto. }
  simpl in Hin.
  repeat (destruct Hin as [E | Hin];
          [injection E as <- <- <-;
           match goal with
           | Hf : match member raw ?x ?y with _ => _ end = Return ?r,
             Hm : member raw ?x ?y = Some _ |- _ =>
             rewrite Hm, Hu, ?Hna in Hf;
             destruct (K r Hf) as (n & Hn & ->);
             exists n; split; [exact Hn | reflexivity]
           end
          |]).
  contradiction.
Qed.

(** X3.  On a numeric field a member that is [null], [false] or the empty
    string is present, so it is converted, and comes out as the number 0,
    not as [null]; [true] comes out as 1.  This holds for each of the nine
    numeric members. *)
Theorem null_false_and_empty_become_zero (Date_parse : string -> number)
  (now : Z) (raw out : value) (x y : string) (path : list string) :
  mapToPrimitives Date_parse now raw = Return out ->
  In (x, y, path) numeric_outputs ->
  (member raw x y = Some VNull \/ member raw x y = Some (VBool false) \/
   member raw x y = Some (VStr "") ->
   output_at out path = Return (VNum pos_zero)) /\
  (member raw x y = Some (VBool true) ->
   output_at out path = Return (VNum (of_Z 1))).
Proof.
  intros H Hin. split.
  - intros [M | [M | M]];
      destruct (numeric_output_is_Number _ _ _ _ _ _ _ _ H Hin M eq_refl eq_refl)
        as (n & Hn & ->);
      cbv in Hn; injection Hn as <-; reflexivity.
  - intros M.
    destruct (numeric_output_is_Number _ _ _ _ _ _ _ _ H Hin M eq_refl eq_refl)
      as (n & Hn & ->).
    cbn in Hn. injection Hn as <-. reflexivity.
Qed.

Lemma null_false_and_empty_become_zero_witness :
  exists out,
    mapToPrimitives Date_parse_iso 0 doc_wrong_types = Return out /\
    output_at out ["clouds"] = Return (VNum pos_zero) /\
    output_at out ["main"] = Return (VNum pos_zero) /\
    output_at out ["raw_payload"; "humidity"] = Return (VNum pos_zero) /\
    output_at out ["raw_payload"; "pressure"] = Return (VNum (of_Z 1)).
Proof.
  eexists. split; [vm_compute; reflexivity|].
  pose proof (fun x y path =>
                null_false_and_empty_become_zero Date_parse_iso 0
                  doc_wrong_types _ x y path ltac:(vm_compute; reflexivity))
    as T.
  split; [apply (T "clouds" "cloudiness_percent");
          [simpl; tauto | left; reflexivity]|].
  split; [apply (T "main" "temperature_c");
          [simpl; tauto | right; left; reflexivity]|].
  split; [apply (T "main" "humidity_percent");
          [simpl; tauto | right; right; reflexivity]|].
  apply (T "main" "pressure_hpa"); [simpl; tauto | reflexivity].
Defined.

(** X4.  Read from the source members: [precipitation] is [Number] of
    [rain_3h_mm] whenever that member is present and not ["N/A"], whatever
    the snow member holds, so a rain amount of 0 or [null] gives 0 and hides
    the snow; it is the normalized snow amount when [rain_3h_mm] is missing
    or ["N/A"]. *)
Theorem precipitation_from_source (Date_parse : string -> number) (now : Z)
  (raw out : value) :
  mapToPrimitives Date_parse now raw = Return out ->
  (forall p,
     member raw "precipitation" "rain_3h_mm" = Some p ->
     is_undefined p = false ->
     strict_equal_string p "N/A" = false ->
     exists n, ToNumber p = Return n /\
               Get out "precipitation" = Return (VNum n)) /\
  (missing raw "precipitation" "rain_3h_mm" \/
   member raw "precipitation" "rain_3h_mm" = Some (VStr "N/A") ->
   Get out "precipitation" = Get2 out "raw_payload" "snow_3h").
Proof.
  intros H.
  destruct (mapToPrimitives_shapes _ _ _ _ H)
    as (t & loc & cl & te & hu & pr & ra & sn & de & ic & ws & wg & wd &
        Ht & _ & _ & _ & _ & _ & Hra & Hsn & _ & _ & _ & _ & _ & ->).
  assert (Hv : nullish_value raw = false).
  { destruct (nullish_value raw) eqn:N; [|reflexivity].
    unfold observedAt, cond in Ht. rewrite (Get_throws raw _ N) in Ht.
    discriminate. }
  pose proof (guarded_numeric_field_type raw _ _ sn Hsn) as Tsn.
  rewrite (guarded_numeric_field_member raw _ _ Hv) in Hra.
  split.
  - intros p M Hu Hna. rewrite M, Hu, Hna in Hra.
    unfold Number, bind in Hra.
    destruct (ToNumber p) as [n|]; [|discriminate].
    injection Hra as <-. exists n. split; reflexivity.
  - intros [[M | M] | M]; rewrite M in Hra; cbn in Hra;
      injection Hra as <-;
      destruct sn; try discriminate; reflexivity.
Qed.

Lemma precipitation_from_source_witness :
  exists out,
    mapToPrimitives Date_parse_iso 0 doc_wrong_types = Return out /\
    Get out "precipitation" = Return (VNum pos_zero) /\
    Get2 out "raw_payload" "snow_3h" = Return (num "4").
Proof.
  eexists. split; [vm_compute; reflexivity|].
  destruct (precipitation_from_source Date_parse_iso 0 doc_wrong_types _
              ltac:(vm_compute; reflexivity)) as [P _].
  destruct (P VNull eq_refl eq_refl eq_refl) as (n & Hn & Hp).
  cbv in Hn. injection Hn as <-.
  split; [exact Hp | vm_compute; reflexivity].
Defined.

(** X5.  A truthy member written with [String] comes out as [String] of
    it: a non-empty string unchanged, any other value as its text.  This
    holds for the location name, the weather description and the icon. *)
Theorem string_members_are_stringified (Date_parse : string -> number)
  (now : Z) (raw out : value) (x y : string) (path : list string) (p : value) :
  mapToPrimitives Date_parse now raw = Return out ->
  In (x, y, path) string_outputs ->
  member raw x y = Some p ->
  ToBoolean p = true ->
  exists s, ToString p = Return s /\ output_at out path = Return (VStr s) /\
            (forall s', p = VStr s' -> s = s').
Proof.
  intros H Hin M Hb.
  pose proof (member_not_nullish _ _ _ _ M) as Hv.
  destruct (mapToPrimitives_shapes _ _ _ _ H)
    as (t & loc & cl & te & hu & pr & ra & sn & de & ic & ws & wg & wd &
        _ & Hloc & _ & _ & _ & _ & _ & _ & Hde & Hic & _ & _ & _ & ->).
  clear H.
  rewrite (string_field_member raw _ _ _ Hv) in Hloc.
  rewrite (string_field_member raw _ _ _ Hv) in Hde.
  rewrite (string_field_member raw _ _ _ Hv) in Hic.
  assert (K : forall r, String_ p = Return r ->
                        exists s, ToString p = Return s /\ r = VStr s /\
                                  (forall s', p = VStr s' -> s = s')).
  { intros r. unfold String_, bind. destruct (ToString p) as [s|] eqn:Es;
      [|discriminate]. intros E. injection E as <-.
    exists s. repeat split. intros s' ->. cbn in Es. congruence. }
  simpl in Hin.
  repeat (destruct Hin as [E | Hin];
          [injection E as <- <- <-;
           match goal with
           | Hf : match member raw ?x ?y with _ => _ end = Return ?r,
             Hm : member raw ?x ?y = Some _ |- _ =>
             rewrite Hm, Hb in Hf;
             destruct (K r Hf) as (s & Hs & -> & Hid);
             exists s; split; [exact Hs | split; [reflexivity | exact Hid]]
           end
          |]).
  contradiction.
Qed.

Lemma string_members_are_stringified_witness :
  exists out,
    mapToPrimitives Date_parse_iso 0 doc_wrong_types = Return out /\
    output_at out ["location"] = Return (VStr "1200") /\
    output_at out ["raw_payload"; "icon"] = Return (VStr "10d").
Proof.
  eexists. split; [vm_compute; reflexivity|].
  pose proof (fun x y path p =>
                string_members_are_stringified Date_parse_iso 0
                  doc_wrong_types _ x y path p ltac:(vm_compute; reflexivity))
    as T.
  split.
  - destruct (T "location" "name" ["location"] (num "1200")
                ltac:(simpl; tauto) ltac:(vm_compute; reflexivity)
                ltac:(vm_compute; reflexivity)) as (s & Hs & Ho & _).
    vm_compute in Hs. injection Hs as <-. exact Ho.
  - destruct (T "weather" "icon" ["raw_payload"; "icon"] (VStr "10d")
                ltac:(simpl; tauto) ltac:(vm_compute; reflexivity)
                ltac:(vm_compute; reflexivity)) as (s & _ & Ho & Hid).
    rewrite (Hid "10d" eq_refl) in Ho. exact Ho.
Defined.

(** X6.  [observed_at] read from the source: the ingestion time when
    [datetime_utc] is falsy; for a non-empty string, the ISO text of the
    time value [Date.parse] gives it; for a non-zero number, the ISO text of
    that number of milliseconds, truncated.  In the last two cases the time
    value is a valid one, or the normalizer would not have returned. *)
Theorem observed_at_from_source (Date_parse : string -> number) (now : Z)
  (raw out d : value) :
  mapToPrimitives Date_parse now raw = Return out ->
  Get raw "datetime_utc" = Return d ->
  (ToBoolean d = false ->
   Get out "observed_at" = Return (VStr (iso_format now))) /\
  (forall s, d = VStr s -> ToBoolean d = true ->
     exists t, TimeClip (Date_parse s) = Some t /\
               Get out "observed_at" = Return (VStr (iso_format t))) /\
  (forall n, d = VNum n -> ToBoolean d = true ->
     exists t, TimeClip n = Some t /\
               Get out "observed_at" = Return (VStr (iso_format t))).
Proof.
  intros H Hd.
  destruct (mapToPrimitives_shapes _ _ _ _ H)
    as (t & loc & cl & te & hu & pr & ra & sn & de & ic & ws & wg & wd &
        Ht & _ & _ & _ & _ & _ & _ & _ & _ & _ & _ & _ & _ & ->).
  clear H. unfold observedAt, cond in Ht. rewrite Hd in Ht. cbn [bind] in Ht.
  repeat match goal with |- _ /\ _ => split end.
  - intros Hb. rewrite Hb in Ht. injection Ht as <-. reflexivity.
  - intros s -> Hb. rewrite Hb in Ht. cbn in Ht. injection Ht as Ht.
    exists t. split; [exact Ht | reflexivity].
  - intros n -> Hb. rewrite Hb in Ht. cbn in Ht. injection Ht as Ht.
    exists t. split; [exact Ht | reflexivity].
Qed.

Lemma observed_at_from_source_witness :
  exists out,
    mapToPrimitives Date_parse_iso 0 doc_wrong_types = Return out /\
    Get out "observed_at" = Return (VStr "2024-02-29T12:30:00.000Z").
Proof.
  eexists. split; [vm_compute; reflexivity|].
  destruct (observed_at_from_source Date_parse_iso 0 doc_wrong_types _
              (num "1709209800000.5") ltac:(vm_compute; reflexivity) eq_refl)
    as (_ & _ & N).
  destruct (N _ eq_refl ltac:(vm_compute; reflexivity)) as (t & Ht & Ho).
  vm_compute in Ht. injection Ht as <-.
  rewrite Ho. vm_compute. reflexivity.
Defined.

(** ** The outcome of a run *)

Lemma ok_true (res : Response) :
  200 <= status res <= 299 <-> ok res = true.
Proof.
  unfold ok. rewrite andb_true_iff, !Z.leb_le. tauto.
Qed.

(** A run by its outcome: applied, or failed with the store as it was and
    one more line on the console. *)
Lemma run_once_outcome (Date_parse : string -> number) (id : string)
  (o : outside) (w : world) :
  (succeeds Date_parse o = true /\
   exists fields,
     run_once Date_parse id o w =
     (let row := wire (VObj (("id", VStr id) :: fields)) in
      let t := upsert_row "id" row (observations w) in
      (Return (Pushed (VArr (selected "id" row t))),
       {| store := fun n => if String.eqb n "weather_observations" then t
                            else store w n;
          console := console w |}))) \/
  (succeeds Date_parse o = false /\
   exists error message,
     run_once Date_parse id o w =
     (Return (NotPushed error), logged message w)).
Proof.
  unfold run_once, succeeds. destruct o as [now net how]. cbn [clock network behaviour].
  destruct net as [res|e0].
  - destruct (ok res) eqn:Hok.
    + destruct (json res) as [raw|e1] eqn:Hjson.
      * destruct (mapToPrimitives Date_parse now raw) as [out|e2] eqn:Hmap.
        -- destruct (push_reaches_store Date_parse id now how w res raw out
                       Hok Hjson Hmap) as (fields & _ & E).
           cbv zeta in E. rewrite E.
           destruct how as [|error|e3]; [left | right | right];
             (split; [reflexivity|]).
           ++ exists fields. reflexivity.
           ++ exists (StoreError (VObj error)), "Supabase upsert error:".
              reflexivity.
           ++ exists (Caught e3), "Error pushing observation:". reflexivity.
        -- right. split; [reflexivity|].
           rewrite (push_normalizer_throws _ _ _ _ _ _ _ _ Hok Hjson Hmap).
           exists (Caught e2), "Error pushing observation:". reflexivity.
      * right. split; [reflexivity|].
        rewrite (push_body_not_json _ _ _ _ _ _ _ Hok Hjson).
        exists (Caught e1), "Error pushing observation:". reflexivity.
    + right. split; [reflexivity|].
      rewrite (push_status_not_ok _ _ _ _ _ _ Hok).
      eexists (Caught _), "Error pushing observation:". reflexivity.
  - right. split; [reflexivity|]. unfold caught.
    exists (Caught e0), "Error pushing observation:". reflexivity.
Qed.

Lemma succeeds_spelled_out (Date_parse : string -> number) (o : outside) :
  succeeds Date_parse o = true <->
  exists res raw out,
    network o = Return res /\ 200 <= status res <= 299 /\
    json res = Return raw /\
    mapToPrimitives Date_parse (clock o) raw = Return out /\
    behaviour o = StoreApplies.
Proof.
  unfold succeeds. split.
  - destruct (network o) as [res|]; [|discriminate].
    destruct (ok res) eqn:Hok; [|discriminate].
    destruct (json res) as [raw|] eqn:Hj; [|discriminate].
    destruct (mapToPrimitives Date_parse (clock o) raw) as [out|] eqn:Hm;
      [|discriminate].
    destruct (behaviour o); try discriminate.
    intros _. exists res, raw, out. apply ok_true in Hok.
    repeat split; try assumption; try reflexivity; lia.
  - intros (res & raw & out & Hn & Hs & Hj & Hm & Hb).
    apply ok_true in Hs. rewrite Hn, Hs, Hj, Hm, Hb. reflexivity.
Qed.

(** X7.  A run succeeds exactly when the fetch answers with a status in
    200-299, the body is JSON, the normalizer returns and the store applies
    the upsert.  A successful run writes nothing to the console; a failed
    one leaves the store as it was and writes exactly one line. *)
Theorem run_succeeds_exactly_when (Date_parse : string -> number)
  (id : string) (o : outside) (w : world) :
  exists r w',
    run_once Date_parse id o w = (Return r, w') /\
    (result_ok r = true <->
     exists res raw out,
       network o = Return res /\ 200 <= status res <= 299 /\
       json res = Return raw /\
       mapToPrimitives Date_parse (clock o) raw = Return out /\
       behaviour o = StoreApplies) /\
    (result_ok r = true -> console w' = console w) /\
    (result_ok r = false ->
     store w' = store w /\
     exists message, console w' = (console w ++ [message])%list).
Proof.
  pose proof (succeeds_spelled_out Date_parse o) as SP.
  destruct (run_once_outcome Date_parse id o w)
    as [(S & fields & E) | (S & error & message & E)];
    rewrite E; cbv zeta; do 2 eexists; (split; [reflexivity|]);
    cbn [result_ok].
  - split; [split; [intros _; apply SP; exact S | reflexivity]|].
    split; [reflexivity | discriminate].
  - split; [split; [discriminate | intros P; apply SP in P; congruence]|].
    split; [discriminate|]. intros _. split; [reflexivity|].
    exists message. reflexivity.
Qed.

(** X8.  Both [/push-now] handlers answer, never throw, and do to the world
    what one run does.  They answer 200 exactly when the run succeeds and
    500 otherwise, the two of them alike. *)
Theorem push_now_answers (Date_parse : string -> number) (id : string)
  (o : outside) (w : world) :
  exists post get,
    post_push_now Date_parse id o w =
      (Return post, snd (run_once Date_parse id o w)) /\
    get_push_now Date_parse id o w =
      (Return get, snd (run_once Date_parse id o w)) /\
    push_status post = push_status get /\
    (push_status post = 200 \/ push_status post = 500) /\
    (push_status post = 200 <->
     exists res raw out,
       network o = Return res /\ 200 <= status res <= 299 /\
       json res = Return raw /\
       mapToPrimitives Date_parse (clock o) raw = Return out /\
       behaviour o = StoreApplies).
Proof.
  pose proof (succeeds_spelled_out Date_parse o) as SP.
  unfold post_push_now, get_push_now, bindM.
  change (pushObservation Date_parse id (clock o) (network o) (behaviour o) w)
    with (run_once Date_parse id o w).
  destruct (run_once_outcome Date_parse id o w)
    as [(S & fields & E) | (S & error & message & E)];
    rewrite E; cbv zeta; cbn [result_ok retM snd];
    do 2 eexists; (split; [reflexivity|]); (split; [reflexivity|]);
    cbn [push_status]; (split; [reflexivity|]).
  - split; [left; reflexivity|].
    split; [intros _; apply SP; exact S | reflexivity].
  - split; [right; reflexivity|].
    split; [discriminate | intros P; apply SP in P; congruence].
Qed.

(** X9.  A body that is the JSON [null], or a document whose [datetime_utc]
    is truthy but makes no valid date, is never persisted: whatever the
    status and the store, the run returns a failure and leaves the store as
    it was. *)
Theorem unusable_document_is_not_persisted (Date_parse : string -> number)
  (id : string) (o : outside) (w : world) (res : Response) (raw : value) :
  network o = Return res ->
  json res = Return raw ->
  (raw = VNull \/
   exists d, Get raw "datetime_utc" = Return d /\ ToBoolean d = true /\
             Date_new Date_parse d = Return None) ->
  exists error w',
    run_once Date_parse id o w = (Return (NotPushed error), w') /\
    store w' = store w.
Proof.
  intros Hn Hj Hraw.
  assert (S : succeeds Date_parse o = false).
  { unfold succeeds. rewrite Hn, Hj.
    destruct (mapToPrimitives Date_parse (clock o) raw) as [out|] eqn:Hm;
      [|apply andb_false_r].
    exfalso.
    destruct (normalize_returns_only_if _ _ _ _ Hm) as (Hv & Hd & _).
    destruct Hraw as [-> | (d & Ed & Hb & Hnew)]; [discriminate|].
    unfold valid_date in Hd. rewrite Ed, Hb, Hnew in Hd. discriminate. }
  destruct (run_once_outcome Date_parse id o w)
    as [(S' & _) | (_ & error & message & E)]; [congruence|].
  exists error, (logged message w). split; [exact E | reflexivity].
Qed.

Lemma unusable_document_is_not_persisted_witness :
  exists error w',
    run_once Date_parse_iso "e6f74576-8913-4def-9f54-fb08f926b7b2"
      run_with_bad_date empty_world = (Return (NotPushed error), w') /\
    store w' = store empty_world.
Proof.
  eapply (unusable_document_is_not_persisted Date_parse_iso _
            run_with_bad_date empty_world); try reflexivity.
  right. exists (VStr "yesterday").
  repeat split; vm_compute; reflexivity.
Defined.

(** ** Sequences of runs and the store *)

(** What a run does to the store is a function of the store alone. *)
Lemma run_once_store_by_row (Date_parse : string -> number) (id : string)
  (o : outside) (w : world) :
  store (snd (run_once Date_parse id o w)) =
  match row_sent Date_parse id o with
  | Some row =>
    fun n => if String.eqb n "weather_observations"
             then upsert_row "id" row (observations w)
             else store w n
  | None => store w
  end.
Proof.
  unfold run_once, row_sent. destruct o as [now net how].
  cbn [clock network behaviour].
  destruct net as [res|e0]; [|reflexivity].
  destruct (ok res) eqn:Hok.
  - destruct (json res) as [raw|e1] eqn:Hjson.
    + destruct (mapToPrimitives Date_parse now raw) as [out|e2] eqn:Hmap.
      * destruct (push_reaches_store Date_parse id now how w res raw out
                    Hok Hjson Hmap) as (fields & Hrec & E).
        cbv zeta in Hrec, E. rewrite E, Hrec.
        destruct how; reflexivity.
      * rewrite (push_normalizer_throws _ _ _ _ _ _ _ _ Hok Hjson Hmap).
        reflexivity.
    + rewrite (push_body_not_json _ _ _ _ _ _ _ Hok Hjson). reflexivity.
  - rewrite (push_status_not_ok _ _ _ _ _ _ Hok). reflexivity.
Qed.

Lemma row_sent_succeeds (Date_parse : string -> number) (id : string)
  (o : outside) :
  succeeds Date_parse o = false -> row_sent Date_parse id o = None.
Proof.
  unfold succeeds, row_sent.
  destruct (network o) as [res|]; [|reflexivity].
  destruct (ok res); [|reflexivity]. cbn [andb].
  destruct (json res) as [raw|]; [|reflexivity].
  destruct (mapToPrimitives Date_parse (clock o) raw) as [out|];
    [|reflexivity].
  destruct (behaviour o); try discriminate;
    destruct (record id out); reflexivity.
Qed.

Lemma run_all_store_ext (Date_parse : string -> number) (id : string)
  (os : list outside) (w1 w2 : world) :
  store w1 = store w2 ->
  store (run_all Date_parse id os w1) = store (run_all Date_parse id os w2).
Proof.
  unfold run_all. revert w1 w2.
  induction os as [|o os IH]; intros w1 w2 H; simpl; [exact H|].
  apply IH. rewrite !run_once_store_by_row. unfold observations.
  rewrite H. reflexivity.
Qed.

(** X10.  Failed runs leave no trace in the store: after any sequence of
    runs the store is what the successful runs of the sequence alone would
    have left. *)
Theorem failed_runs_leave_the_store (Date_parse : string -> number)
  (id : string) (os : list outside) (w : world) :
  store (run_all Date_parse id os w) =
  store (run_all Date_parse id (filter (succeeds Date_parse) os) w).
Proof.
  revert w. induction os as [|o os IH]; intros w; [reflexivity|].
  cbn [filter]. destruct (succeeds Date_parse o) eqn:S.
  - unfold run_all in *. simpl. apply IH.
  - rewrite <- IH. unfold run_all at 1. cbn [fold_left].
    apply run_all_store_ext.
    rewrite run_once_store_by_row, (row_sent_succeeds _ id _ S).
    reflexivity.
Qed.

Lemma record_of_parts (id : string) (a b c d e f g h : value) :
  record id (VObj [ ("observed_at", a); ("location", b); ("clouds", c);
                    ("main", d); ("precipitation", e); ("weather", f);
                    ("wind", g); ("raw_payload", h) ]) =
  Return (VObj [ ("id", VStr id);
                 ("observed_at", a);
                 ("location", b);
                 ("location_point", VNull);
                 ("clouds", c);
                 ("main", d);
                 ("precipitation", e);
                 ("weather", f);
                 ("wind", g);
                 ("raw_payload", h) ]).
Proof. reflexivity. Qed.

Lemma wire_record (id s : string) (b c d e f g : value)
  (ps : list (string * value)) :
  is_string b = true -> number_or_null c = true -> number_or_null d = true ->
  number_or_null e = true -> string_or_null f = true ->
  number_or_null g = true ->
  wire (VObj [ ("id", VStr id);
               ("observed_at", VStr s);
               ("location", b);
               ("location_point", VNull);
               ("clouds", c);
               ("main", d);
               ("precipitation", e);
               ("weather", f);
               ("wind", g);
               ("raw_payload", VObj ps) ]) =
  VObj [ ("id", VStr id);
         ("observed_at", VStr s);
         ("location", b);
         ("location_point", VNull);
         ("clouds", wire c);
         ("main", wire d);
         ("precipitation", wire e);
         ("weather", f);
         ("wind", wire g);
         ("raw_payload", wire (VObj ps)) ].
Proof.
  destruct b; try discriminate; destruct c; try discriminate;
    destruct d; try discriminate; destruct e; try discriminate;
    destruct f; try discriminate; destruct g; try discriminate;
    reflexivity.
Qed.

Lemma wire_rawPayload (ic hu pr wg wd ra sn : value) :
  string_or_null ic = true -> number_or_null hu = true ->
  number_or_null pr = true -> number_or_null wg = true ->
  number_or_null wd = true -> number_or_null ra = true ->
  number_or_null sn = true ->
  rawPayload ic hu pr wg wd ra sn =
  VObj [ ("icon", ic); ("humidity", hu); ("pressure", pr);
         ("wind_gust", wg); ("wind_deg", wd); ("rain_3h", ra);
         ("snow_3h", sn) ] /\
  wire (rawPayload ic hu pr wg wd ra sn) =
  VObj [ ("icon", ic); ("humidity", wire hu); ("pressure", wire pr);
         ("wind_gust", wire wg); ("wind_deg", wire wd); ("rain_3h", wire ra);
         ("snow_3h", wire sn) ].
Proof.
  destruct ic; try discriminate; destruct hu; try discriminate;
    destruct pr; try discriminate; destruct wg; try discriminate;
    destruct wd; try discriminate; destruct ra; try discriminate;
    destruct sn; try discriminate; split; reflexivity.
Qed.

(** The row a run sends is the wire image of the record of the observation
    the normalizer returned. *)
Lemma row_sent_explicit (Date_parse : string -> number) (id : string)
  (o : outside) (row : value) :
  row_sent Date_parse id o = Some row ->
  exists res raw observed_at loc cl te pp de ws ic hu pr wg wd ra sn,
    network o = Return res /\ json res = Return raw /\
    mapToPrimitives Date_parse (clock o) raw =
      Return (VObj [ ("observed_at", observed_at);
                     ("location", loc);
                     ("clouds", cl);
                     ("main", te);
                     ("precipitation", pp);
                     ("weather", de);
                     ("wind", ws);
                     ("raw_payload",
                      VObj [ ("icon", ic); ("humidity", hu);
                             ("pressure", pr); ("wind_gust", wg);
                             ("wind_deg", wd); ("rain_3h", ra);
                             ("snow_3h", sn) ]) ]) /\
    Forall (fun v => number_or_null v = true)
      [cl; te; pp; ws; hu; pr; wg; wd; ra; sn] /\
    row = VObj [ ("id", VStr id);
                 ("observed_at", observed_at);
                 ("location", loc);
                 ("location_point", VNull);
                 ("clouds", wire cl);
                 ("main", wire te);
                 ("precipitation", wire pp);
                 ("weather", de);
                 ("wind", wire ws);
                 ("raw_payload",
                  VObj [ ("icon", ic); ("humidity", wire hu);
                         ("pressure", wire pr); ("wind_gust", wire wg);
                         ("wind_deg", wire wd); ("rain_3h", wire ra);
                         ("snow_3h", wire sn) ]) ].
Proof.
  unfold row_sent.
  destruct (network o) as [res|] eqn:Hn; [|discriminate].
  destruct (ok res); [|discriminate].
  destruct (json res) as [raw|] eqn:Hj; [|discriminate].
  destruct (mapToPrimitives Date_parse (clock o) raw) as [out|] eqn:Hmap;
    [|discriminate].
  destruct (mapToPrimitives_shapes _ _ _ _ Hmap)
    as (t & loc & cl & te & hu & pr & ra & sn & de & ic & ws & wg & wd &
        _ & Hloc & Hcl & Hte & Hhu & Hpr & Hra & Hsn & Hde & Hic & Hws &
        Hwg & Hwd & E0).
  pose proof (numeric_field_type raw _ _ cl Hcl) as Tcl.
  pose proof (numeric_field_type raw _ _ te Hte) as Tte.
  pose proof (numeric_field_type raw _ _ hu Hhu) as Thu.
  pose proof (numeric_field_type raw _ _ pr Hpr) as Tpr.
  pose proof (numeric_field_type raw _ _ ws Hws) as Tws.
  pose proof (numeric_field_type raw _ _ wg Hwg) as Twg.
  pose proof (numeric_field_type raw _ _ wd Hwd) as Twd.
  pose proof (guarded_numeric_field_type raw _ _ ra Hra) as Tra.
  pose proof (guarded_numeric_field_type raw _ _ sn Hsn) as Tsn.
  assert (Tp : number_or_null (nullish (nullish ra sn) VNull) = true)
    by (destruct ra; try discriminate; destruct sn; try discriminate;
        reflexivity).
  assert (Tloc : is_string loc = true)
    by (destruct (string_field_type raw _ _ _ loc Hloc) as [-> | T];
        [reflexivity | exact T]).
  assert (Tde : string_or_null de = true)
    by (destruct (string_field_type raw _ _ _ de Hde) as [-> | T];
        [reflexivity | destruct de; try discriminate; reflexivity]).
  assert (Tic : string_or_null ic = true)
    by (destruct (string_field_type raw _ _ _ ic Hic) as [-> | T];
        [reflexivity | destruct ic; try discriminate; reflexivity]).
  destruct (wire_rawPayload ic hu pr wg wd ra sn Tic Thu Tpr Twg Twd Tra Tsn)
    as [Erp Ewrp].
  rewrite E0 at 1. rewrite record_of_parts.
  destruct (behaviour o); try discriminate.
  rewrite Erp.
  rewrite (wire_record id _ _ _ _ _ _ _ _ Tloc Tcl Tte Tp Tde Tws).
  rewrite <- Erp, Ewrp.
  intros E.
  exists res, raw, (VStr (iso_format t)), loc, cl, te,
    (nullish (nullish ra sn) VNull), de, ws, ic, hu, pr, wg, wd, ra, sn.
  split; [reflexivity|]. split; [exact Hj|].
  split; [rewrite Hmap, E0, Erp; reflexivity|].
  split; [repeat constructor; assumption|].
  exact (f_equal (fun x => match x with Some r => r | None => row end)
           (eq_sym E)).
Qed.

Lemma row_sent_shape (Date_parse : string -> number) (id : string)
  (o : outside) (row : value) :
  row_sent Date_parse id o = Some row -> pipeline_row id row.
Proof.
  intros H.
  destruct (row_sent_explicit _ _ _ _ H)
    as (res & raw & a & b & c & d & e & f & g & ic & hu & pr & wg & wd &
        ra & sn & _ & _ & _ & _ & ->).
  unfold pipeline_row. do 8 eexists. reflexivity.
Qed.

Lemma upsert_over_pipeline_row (id : string) (old new : value) :
  pipeline_row id old -> pipeline_row id new ->
  upsert_row "id" new [old] = [new].
Proof.
  intros (a & b & c & d & e & f & g & h & ->)
         (a' & b' & c' & d' & e' & f' & g' & h' & ->).
  cbn [upsert_row same_key Get lookup String.eqb Ascii.eqb Bool.eqb].
  rewrite String.eqb_refl. reflexivity.
Qed.

Lemma run_once_observations (Date_parse : string -> number) (id : string)
  (o : outside) (w : world) :
  observations (snd (run_once Date_parse id o w)) =
  match row_sent Date_parse id o with
  | Some row => upsert_row "id" row (observations w)
  | None => observations w
  end.
Proof.
  unfold observations at 1. rewrite run_once_store_by_row.
  destruct (row_sent Date_parse id o); reflexivity.
Qed.

Lemma run_all_last_row (Date_parse : string -> number) (id : string)
  (os : list outside) (w : world) (before : option value) :
  (forall row, before = Some row -> pipeline_row id row) ->
  observations w = table_of before ->
  observations (run_all Date_parse id os w) =
  table_of (last_row_sent Date_parse id os before).
Proof.
  unfold run_all. revert w before.
  induction os as [|o os IH]; intros w before Hb Hw; [exact Hw|].
  cbn [fold_left last_row_sent]. apply IH.
  - intros row. destruct (row_sent Date_parse id o) as [r|] eqn:R.
    + intros E. injection E as <-. exact (row_sent_shape _ _ _ _ R).
    + apply Hb.
  - rewrite run_once_observations, Hw.
    destruct (row_sent Date_parse id o) as [r|] eqn:R; [|reflexivity].
    destruct before as [b|]; [|reflexivity].
    exact (upsert_over_pipeline_row id b r (Hb b eq_refl)
             (row_sent_shape _ _ _ _ R)).
Qed.

(** X11.  Last write wins.  With the store's upsert overwriting in place,
    a table that starts empty holds, after any sequence of runs, exactly the
    row of the last successful run, and nothing when no run succeeded. *)
Theorem table_holds_the_last_row (Date_parse : string -> number)
  (id : string) (os : list outside) (w : world) :
  observations w = [] ->
  observations (run_all Date_parse id os w) =
  table_of (last_row_sent Date_parse id os None).
Proof.
  intros H. apply run_all_last_row; [discriminate | exact H].
Qed.

Lemma table_holds_the_last_row_witness :
  exists row,
    row_sent Date_parse_iso "e6f74576-8913-4def-9f54-fb08f926b7b2"
      {| clock := 1700000060000;
         network :=
           Return {| status := 200; json := Return doc_rain_and_snow |};
         behaviour := StoreApplies |} = Some row /\
    observations
      (run_all Date_parse_iso "e6f74576-8913-4def-9f54-fb08f926b7b2"
         three_runs empty_world) = [row].
Proof.
  eexists. split; [vm_compute; reflexivity|].
  rewrite (table_holds_the_last_row Date_parse_iso
             "e6f74576-8913-4def-9f54-fb08f926b7b2" three_runs empty_world
             eq_refl).
  vm_compute. reflexivity.
Defined.

(** ** More on the scheduler *)

Section SchedulerRuns.

Variable INTERVAL_SECONDS : number.

Lemma run_snoc (events : list event) (e : event) :
  run INTERVAL_SECONDS (events ++ [e]) =
  step INTERVAL_SECONDS (run INTERVAL_SECONDS events) e.
Proof. unfold run. rewrite fold_left_app. reflexivity. Qed.

Lemma step_launched (s : scheduler) (e : event) :
  consistent s ->
  launched (step INTERVAL_SECONDS s e) = (launched s ++ pushes_of s e)%list.
Proof.
  unfold consistent, pushes_of. intros C.
  destruct e; cbn [step];
    unfold post_start, get_start, post_stop, get_stop, startPusher, tick;
    destruct (intervalHandle s) as [h|]; cbn [snd launched];
    rewrite ?app_nil_r; try reflexivity.
  - destruct C as [delay ->]. reflexivity.
  - rewrite C. rewrite app_nil_r. reflexivity.
Qed.

Lemma ticks_when_idle (n : nat) (s : scheduler) :
  intervalHandle s = None -> timers s = [] ->
  fold_left (step INTERVAL_SECONDS) (repeat Tick n) s =
  {| intervalHandle := None; timers := []; next_timer := next_timer s;
     launched := launched s |}.
Proof.
  revert s. induction n as [|n IH]; intros s H T; cbn [repeat fold_left].
  - destruct s. cbn in *. subst. reflexivity.
  - rewrite IH.
    + unfold step, tick. cbn. rewrite T, app_nil_r. reflexivity.
    + unfold step, tick. cbn. exact H.
    + unfold step, tick. cbn. exact T.
Qed.

End SchedulerRuns.

(** X12.  In a running process each event launches at most one push and
    takes none back: a start launches one exactly when the scheduler is
    idle, a tick launches one, from the current timer, exactly when it is
    running, and a stop launches none. *)
Theorem pushes_per_event (INTERVAL_SECONDS : number) (events : list event)
  (e : event) :
  let s := run INTERVAL_SECONDS events in
  launched (run INTERVAL_SECONDS (events ++ [e])) =
    (launched s ++ pushes_of s e)%list /\
  (List.length (pushes_of s e) <= 1)%nat.
Proof.
  intros s. split.
  - rewrite run_snoc. apply step_launched, run_consistent.
  - unfold pushes_of. destruct e, (intervalHandle s); simpl; lia.
Qed.

(** X13.  After a stop no tick launches a push, however many intervals
    elapse, and the pushes launched before the stop stay launched. *)
Theorem no_push_after_stop (INTERVAL_SECONDS : number) (events : list event)
  (n : nat) :
  launched
    (fold_left (step INTERVAL_SECONDS) (repeat Tick n)
       (snd (post_stop (run INTERVAL_SECONDS events)))) =
  launched (run INTERVAL_SECONDS events) /\
  launched
    (fold_left (step INTERVAL_SECONDS) (repeat Tick n)
       (snd (get_stop (run INTERVAL_SECONDS events)))) =
  launched (run INTERVAL_SECONDS events).
Proof.
  pose proof (run_consistent INTERVAL_SECONDS events) as C.
  destruct (stop_consistent _ C) as [Cp Cg].
  unfold consistent in C, Cp, Cg. unfold post_stop, get_stop in *.
  destruct (intervalHandle (run INTERVAL_SECONDS events)) as [h|] eqn:H;
    cbn [snd intervalHandle timers] in *;
    rewrite ?H in *;
    split; rewrite ticks_when_idle; try reflexivity; assumption.
Qed.

(** X14.  Stopping a running scheduler and starting it again sets a new
    timer, the only one, and pushes at once, as the first start did. *)
Theorem restart_pushes_again (INTERVAL_SECONDS : number)
  (events : list event) (h : nat) :
  intervalHandle (run INTERVAL_SECONDS events) = Some h ->
  let s := run INTERVAL_SECONDS events in
  let s' := startPusher INTERVAL_SECONDS (snd (post_stop s)) in
  intervalHandle s' = Some (next_timer s) /\
  timers s' =
    [(next_timer s, SFmul prec emax INTERVAL_SECONDS (of_Z 1000))] /\
  launched s' = (launched s ++ [InitialPush])%list.
Proof.
  intros H s s'. subst s'.
  pose proof (run_consistent INTERVAL_SECONDS events) as C.
  unfold consistent in C. fold s in C, H. rewrite H in C.
  destruct C as [delay T].
  unfold post_stop. rewrite H, T, clearInterval_single.
  repeat split.
Qed.

Lemma restart_pushes_again_witness :
  launched
    (startPusher (of_Z 30)
       (snd (post_stop (run (of_Z 30) [Tick; Tick])))) =
  [InitialPush; TimerPush 0; TimerPush 0; InitialPush].
Proof.
  destruct (restart_pushes_again (of_Z 30) [Tick; Tick] 0%nat eq_refl)
    as (_ & _ & L).
  exact L.
Defined.

(** ** The configured interval *)

Lemma timer_delay_zero_or_nan (seconds : number) :
  is_zero_or_nan seconds = true ->
  timer_delay (SFmul prec emax seconds (of_Z 1000)) = of_Z 1.
Proof.
  destruct seconds as [sg| | |]; try discriminate; intros _;
    [destruct sg|]; vm_compute; reflexivity.
Qed.

(** X15.  The interval is not validated.  Unset, it is 30 seconds and the
    timer runs every 30000 ms; set, it is [Number] of the text, so text
    that is no number gives [NaN] and empty text gives 0, and in both cases
    the timer that [startPusher] sets runs with the runtime's delay of
    1 ms. *)
Theorem interval_is_not_validated (PUSH_INTERVAL_SECONDS : option string) :
  exists seconds delay,
    INTERVAL_SECONDS_of PUSH_INTERVAL_SECONDS = Return seconds /\
    timers (startPusher seconds idle) = [(0%nat, delay)] /\
    (PUSH_INTERVAL_SECONDS = None ->
     seconds = of_Z 30 /\ timer_delay delay = of_Z 30000) /\
    (forall text, PUSH_INTERVAL_SECONDS = Some text ->
       seconds = StringToNumber text) /\
    (is_zero_or_nan seconds = true -> timer_delay delay = of_Z 1).
Proof.
  destruct PUSH_INTERVAL_SECONDS as [text|]; cbn [INTERVAL_SECONDS_of
    env_value nullish ToNumber ToPrimitive bind]; do 2 eexists;
    (split; [reflexivity|]); (split; [reflexivity|]).
  - split; [discriminate|]. split; [intros ? E; injection E as <-; reflexivity|].
    apply timer_delay_zero_or_nan.
  - split; [intros _; split; vm_compute; reflexivity|].
    split; [discriminate|]. vm_compute. discriminate.
Qed.

(** ** What reaches the store of a number *)

Lemma wire_number_or_null (v : value) :
  number_or_null v = true -> finite_or_null (wire v) = true.
Proof.
  destruct v as [| | |n| | |]; try discriminate; [reflexivity|].
  destruct n; reflexivity.
Qed.

(** X16.  No [NaN] reaches the store.  In the row a successful run sends,
    each of the ten numeric places holds what the observation holds there
    after JSON serialization: a finite number, or [null] where the
    observation has [null], [NaN] or an infinity. *)
Theorem stored_numbers_are_finite_or_null (Date_parse : string -> number)
  (id : string) (o : outside) (row : value) (path : list string) :
  row_sent Date_parse id o = Some row ->
  In path numeric_columns ->
  exists res raw out v,
    network o = Return res /\ json res = Return raw /\
    mapToPrimitives Date_parse (clock o) raw = Return out /\
    output_at out path = Return v /\
    output_at row path = Return (wire v) /\
    finite_or_null (wire v) = true.
Proof.
  intros H Hin.
  destruct (row_sent_explicit _ _ _ _ H)
    as (res & raw & a & b & cl & te & pp & de & ws & ic & hu & pr & wg & wd &
        ra & sn & Hn & Hj & Hmap & T & ->).
  exists res, raw. eexists.
  repeat match goal with
         | T : Forall _ (_ :: _) |- _ => inversion_clear T
         end.
  simpl in Hin.
  repeat (destruct Hin as [<- | Hin];
          [eexists; split; [exact Hn|]; split; [exact Hj|];
           split; [exact Hmap|]; split; [reflexivity|];
           split; [reflexivity | apply wire_number_or_null; assumption]
          |]).
  contradiction.
Qed.

Lemma stored_numbers_are_finite_or_null_witness :
  exists row,
    row_sent Date_parse_iso "e6f74576-8913-4def-9f54-fb08f926b7b2"
      run_not_available = Some row /\
    output_at row ["clouds"] = Return VNull /\
    output_at row ["raw_payload"; "humidity"] = Return VNull.
Proof.
  eexists. split; [vm_compute; reflexivity|].
  pose proof (fun path =>
                stored_numbers_are_finite_or_null Date_parse_iso
                  "e6f74576-8913-4def-9f54-fb08f926b7b2" run_not_available
                  _ path ltac:(vm_compute; reflexivity)) as T.
  split.
  - destruct (T ["clouds"] ltac:(simpl; tauto))
      as (res & raw & out & v & Hn & Hj & Hm & Ho & Hr & _).
    injection Hn as <-. injection Hj as <-.
    vm_compute in Hm. injection Hm as <-.
    vm_compute in Ho. injection Ho as <-. exact Hr.
  - destruct (T ["raw_payload"; "humidity"] ltac:(simpl; tauto))
      as (res & raw & out & v & Hn & Hj & Hm & Ho & Hr & _).
    injection Hn as <-. injection Hj as <-.
    vm_compute in Hm. injection Hm as <-.
    vm_compute in Ho. injection Ho as <-. exact Hr.
Defined.
